(** * StudentGradingSystem: the upload / result controller

    A shallow embedding of the React component [StudentGradingSystem]
    (the file-intake, submit, result-transformation and notification
    handlers) together with the parts of the JavaScript runtime those
    handlers rely on: string helpers, the [Number] conversion of strings,
    JSON values with property access, truthiness and string conversion,
    timers and the log of issued network requests.

    Conventions.
    - A JavaScript string is a [string]; each character stands for one
      UTF-16 code unit below 256 (the Latin-1 range).
    - A JavaScript number that comes from text is kept as the exact decimal
      it denotes ([Dec]); the tests the component performs on it ([isNaN],
      [< 0], truthiness) are defined through binary64 rounding of that
      decimal.
    - The component state lives in a store that the [set...] functions
      write; a handler reads the snapshot it was created with.
    - An [async] handler comes in two parts: what runs at once, up to
      its first [await], and what runs when the awaited promise has
      settled (named [..._settled]); the second part may meet any world,
      since other handlers can run in between. *)

From stdpp Require Import base strings list gmap pretty.
From Stdlib Require Import NArith ZArith Ascii.

Open Scope string_scope.

(* ================================================================= *)
(** ** The JavaScript runtime used by the component *)
(* ================================================================= *)

Module JS.

(** *** Strings *)

Definition code (c : ascii) : N := N_of_ascii c.

(** [String.prototype.toLowerCase] on one Latin-1 code unit: [A]-[Z] and
    the accented capitals U+00C0..U+00DE (except the multiplication sign
    U+00D7) move up by 32. *)
Definition lower_char (c : ascii) : ascii :=
  let n := code c in
  if ((65 <=? n) && (n <=? 90)
      || (192 <=? n) && (n <=? 222) && negb (n =? 215))%N
  then ascii_of_N (n + 32) else c.

Fixpoint toLowerCase (s : string) : string :=
  match s with
  | "" => ""
  | String c r => String (lower_char c) (toLowerCase r)
  end.

(** [s.endsWith(search)]: the [length search] code units that end [s]
    are [search]; false when [search] is longer than [s]. *)
Definition endsWith (s search : string) : bool :=
  let len := String.length s in
  let n := String.length search in
  if (n <=? len)%nat
  then String.eqb (String.substring (len - n) n s) search
  else false.

(** White space and line terminators (the characters [trim] removes and
    [Number] skips): TAB, LF, VT, FF, CR, SP, NBSP. *)
Definition is_white (c : ascii) : bool :=
  let n := code c in
  ((9 <=? n) && (n <=? 13) || (n =? 32) || (n =? 160))%N.

Fixpoint trimStart (s : string) : string :=
  match s with
  | "" => ""
  | String c r => if is_white c then trimStart r else s
  end.

Fixpoint trimEnd (s : string) : string :=
  match s with
  | "" => ""
  | String c r =>
      let r' := trimEnd r in
      if is_white c && String.eqb r' "" then "" else String c r'
  end.

Definition trim (s : string) : string := trimEnd (trimStart s).

(** *** Numbers *)

(** A number read from text. [Dec neg m e] stands for the binary64 value
    nearest to [(-1)^neg * m * 10^e] (the conversion rounds exactly, as
    the common engines do also beyond twenty significant digits). *)
Inductive number : Type :=
  | NaN
  | Inf (neg : bool)
  | Dec (neg : bool) (m : N) (e : Z).

(** [m * 10^e <= 2^(-1075)]: the decimal rounds to zero in binary64
    (half of the least subnormal ties to the even neighbour, zero). *)
Definition rounds_to_zero (m : N) (e : Z) : bool :=
  if (m =? 0)%N then true
  else if (0 <=? e)%Z then false
  else (Z.of_N m * 2 ^ 1075 <=? 10 ^ (- e))%Z.

Definition isNaN (x : number) : bool :=
  match x with NaN => true | _ => false end.

(** [x < 0] *)
Definition lt_zero (x : number) : bool :=
  match x with
  | NaN => false
  | Inf neg => neg
  | Dec neg m e => neg && negb (rounds_to_zero m e)
  end.

(** [x] is [+0] or [-0] *)
Definition is_zero (x : number) : bool :=
  match x with
  | Dec _ m e => rounds_to_zero m e
  | _ => false
  end.

Definition digit_of (base : N) (c : ascii) : option N :=
  let n := code c in
  let d :=
    if ((48 <=? n) && (n <=? 57))%N then Some (n - 48)%N
    else if ((97 <=? n) && (n <=? 102))%N then Some (n - 87)%N
    else if ((65 <=? n) && (n <=? 70))%N then Some (n - 55)%N
    else None in
  match d with
  | Some v => if (v <? base)%N then Some v else None
  | None => None
  end.

(** Reads the longest run of digits of [base] at the head of [s],
    continuing the value [acc]; returns the value, the number of digits
    read and the rest of [s]. *)
Fixpoint scan_digits (base : N) (s : string) (acc : N) (n : nat)
  : N * nat * string :=
  match s with
  | "" => (acc, n, "")
  | String c r =>
      match digit_of base c with
      | Some d => scan_digits base r (base * acc + d)%N (S n)
      | None => (acc, n, s)
      end
  end.

(** ExponentPart (optional): [e] or [E], an optional sign and at least
    one digit, up to the end of the text. *)
Definition scan_exponent (s : string) : option Z :=
  match s with
  | "" => Some 0%Z
  | String c r =>
      if (code c =? 101)%N || (code c =? 69)%N then
        let '(neg, r) :=
          match r with
          | String "-" r' => (true, r')
          | String "+" r' => (false, r')
          | _ => (false, r)
          end in
        match scan_digits 10 r 0 0 with
        | (x, S _, "") => Some (if neg then - Z.of_N x else Z.of_N x)%Z
        | _ => None
        end
      else None
  end.

(** StrUnsignedDecimalLiteral *)
Definition unsigned_decimal (neg : bool) (s : string) : number :=
  if String.eqb s "Infinity" then Inf neg
  else
    let '(i, ni, r1) := scan_digits 10 s 0 0 in
    let '(m, nf, r2) :=
      match r1 with
      | String "." r => let '(m, nf, r2) := scan_digits 10 r i 0 in (m, nf, r2)
      | _ => (i, O, r1)
      end in
    match (ni + nf)%nat with
    | O => NaN
    | S _ =>
        match scan_exponent r2 with
        | Some x => Dec neg m (x - Z.of_nat nf)
        | None => NaN
        end
    end.

(** NonDecimalIntegerLiteral: the digits after [0x], [0o] or [0b]. *)
Definition non_decimal (base : N) (s : string) : number :=
  match scan_digits base s 0 0 with
  | (v, S _, "") => Dec false v 0
  | _ => NaN
  end.

(** [Number(s)] for a string [s]. *)
Definition Number (s : string) : number :=
  match trim s with
  | "" => Dec false 0 0
  | String "0" (String "x" r) | String "0" (String "X" r) => non_decimal 16 r
  | String "0" (String "o" r) | String "0" (String "O" r) => non_decimal 8 r
  | String "0" (String "b" r) | String "0" (String "B" r) => non_decimal 2 r
  | String "-" r => unsigned_decimal true r
  | String "+" r => unsigned_decimal false r
  | t => unsigned_decimal false t
  end.

(** *** Values *)

(** The values the component handles: what [JSON.parse] produces, and
    [undefined] for a property that is not there. An object is the list
    of its own properties. *)
#[warnings="-register-all"]
Inductive value : Type :=
  | VUndefined
  | VNull
  | VBool (b : bool)
  | VNum (n : number)
  | VStr (s : string)
  | VArr (items : list value)
  | VObj (props : list (string * value)).

(** Thrown values; the component reads only their [message]. [Error] is
    what [new Error(text)] builds, [TypeError] what the engine raises,
    [Failure] what a rejected [fetch], [json()] or [blob()] carries. *)
Inductive error : Type :=
  | Error (text : string)
  | TypeError (text : string)
  | Failure (text : string).

Definition message_of (e : error) : string :=
  match e with Error t | TypeError t | Failure t => t end.

(** What the language leaves to the engine: the text of a number and
    the wording of the [TypeError]s it raises. *)
Class Engine : Type := {
  NumberToString : number -> string;
  (** reading property [k] of [null] or [undefined] *)
  cannot_read : value -> string -> string;
  (** calling something that is not a function *)
  not_a_function : string -> string;
  (** converting an object that has no usable [toString] to a primitive *)
  cannot_convert : value -> string
}.

(** The settled state of a promise. *)
Inductive Settled (A : Type) : Type :=
  | Fulfilled (a : A)
  | Rejected (e : error).
Arguments Fulfilled {A} a.
Arguments Rejected {A} e.

Fixpoint own_property (k : string) (props : list (string * value)) : value :=
  match props with
  | [] => VUndefined
  | (k', v) :: rest => if String.eqb k' k then v else own_property k rest
  end.

(** Truthiness, as tested by [!], [&&], [||] and [?:]. *)
Definition truthy (v : value) : bool :=
  match v with
  | VUndefined | VNull => false
  | VBool b => b
  | VNum n => negb (isNaN n) && negb (is_zero n)
  | VStr s => negb (String.eqb s "")
  | VArr _ | VObj _ => true
  end.

(** The object has an own property named [k]. *)
Definition has_own_property (k : string) (props : list (string * value)) : bool :=
  existsb (fun p => String.eqb p.1 k) props.

(** [a.join(sep)] given the text of each element. *)
Fixpoint join_strings (sep : string) (parts : list string) : string :=
  match parts with
  | [] => ""
  | [p] => p
  | p :: rest => p +:+ sep +:+ join_strings sep rest
  end.

Section WithEngine.
Context {engine : Engine}.

(** [v.k] for a property name [k] that no built-in prototype defines
    (every name the component reads is of that kind): [null] and
    [undefined] throw, an object answers with its own property, any
    other value with [undefined]. *)
Definition Get (v : value) (k : string) : error + value :=
  match v with
  | VUndefined | VNull => inl (TypeError (cannot_read v k))
  | VObj props => inr (own_property k props)
  | _ => inr VUndefined
  end.

(** [String(v)], also the conversion behind [+] with a string, template
    literals, property keys, [new Error(v)] and the assignment to a
    text attribute. An array joins its elements with a comma, [null] and
    [undefined] elements giving the empty text. An object is converted
    by its [toString]: the inherited one gives "[object Object]", but an
    own property of that name (never a function in a parsed body) hides
    it, and the conversion throws. *)
Fixpoint ToString (v : value) : error + string :=
  match v with
  | VUndefined => inr "undefined"
  | VNull => inr "null"
  | VBool true => inr "true"
  | VBool false => inr "false"
  | VNum n => inr (NumberToString n)
  | VStr s => inr s
  | VArr items =>
      match
        (fix each (l : list value) : error + list string :=
           match l with
           | [] => inr []
           | x :: r =>
               match
                 match x with
                 | VUndefined | VNull => inr ""
                 | _ => ToString x
                 end
               with
               | inl e => inl e
               | inr t =>
                   match each r with
                   | inl e => inl e
                   | inr ts => inr (t :: ts)
                   end
               end
           end) items
      with
      | inl e => inl e
      | inr ts => inr (join_strings "," ts)
      end
  | VObj props =>
      if has_own_property "toString" props
      then inl (TypeError (cannot_convert v))
      else inr "[object Object]"
  end.

(** The text [join] uses for one element. *)
Definition element_text (v : value) : error + string :=
  match v with
  | VUndefined | VNull => inr ""
  | _ => ToString v
  end.

(** The texts of the elements, converted from left to right. *)
Fixpoint element_texts (items : list value) : error + list string :=
  match items with
  | [] => inr []
  | x :: r =>
      match element_text x with
      | inl e => inl e
      | inr t =>
          match element_texts r with
          | inl e => inl e
          | inr ts => inr (t :: ts)
          end
      end
  end.

(** [items.join(sep)] *)
Definition join (sep : string) (items : list value) : error + string :=
  match element_texts items with
  | inl e => inl e
  | inr ts => inr (join_strings sep ts)
  end.

(** [v.join(sep)] for any value [v], named [what] in the source: only
    an array has the method. *)
Definition call_join (what : string) (v : value) (sep : string)
  : error + string :=
  match v with
  | VArr items => join sep items
  | VUndefined | VNull => inl (TypeError (cannot_read v "join"))
  | _ => inl (TypeError (not_a_function (what +:+ ".join")))
  end.
End WithEngine.

(** *** Code that writes a store and may throw *)

(** A computation over a store [S]: it ends with a result or a thrown
    error, and with the store as it left it. *)
Definition M (S A : Type) : Type := S -> (error + A) * S.

#[global] Instance M_ret {S} : MRet (M S) := fun A a w => (inr a, w).
#[global] Instance M_bind {S} : MBind (M S) := fun A B f m w =>
  match m w with
  | (inr a, w') => f a w'
  | (inl e, w') => (inl e, w')
  end.

Definition throw {S A} (e : error) : M S A := fun w => (inl e, w).

(** Completes a value or throws. *)
Definition lift {S A} (r : error + A) : M S A := fun w => (r, w).

(** [await p] for a promise [p] that has settled. *)
Definition await {S A} (p : Settled A) : M S A :=
  match p with
  | Fulfilled a => mret a
  | Rejected e => throw e
  end.

(** [try { body } catch (e) { handler e }] *)
Definition try_catch {S A} (body : M S A) (handler : error -> M S A) : M S A :=
  fun w =>
    match body w with
    | (inl e, w') => handler e w'
    | done => done
    end.

(** [try { body } finally { cleanup }] *)
Definition try_finally {S A} (body : M S A) (cleanup : M S unit) : M S A :=
  fun w =>
    let '(r, w') := body w in
    match cleanup w' with
    | (inl e, w'') => (inl e, w'')
    | (inr _, w'') => (r, w'')
    end.

(** The store a computation leaves. *)
Definition exec {S A} (m : M S A) (w : S) : S := (m w).2.

End JS.

(* ================================================================= *)
(** ** The component *)
(* ================================================================= *)

Module App.
Import JS.

(** *** State *)

(** A file handed over by the picker or a drop. *)
Record File : Type := { name : string; size : N }.

Record Notification : Type := { message : string; type : string }.

Record DownloadInfo : Type := { fileId : value; filename : value }.

Record GradeRange : Type := { range_grade : string; points : N }.

(** One bar of the chart: [{ grade, 'Number of Students' }]. The count
    is a whole number far below 2^53, where JavaScript numbers are
    exact. *)
Record ChartEntry : Type := { grade : string; Number_of_Students : nat }.

(** The [useState] cells of the component. *)
Record State : Type := {
  selectedFile : option File;
  isUploading : bool;
  notification : Notification;
  downloadInfo : option DownloadInfo;
  resultStats : value;
  resultDetails : value;
  chartData : list ChartEntry;
  gradeRanges : value;
  expectedTotal : string;
  subjectCode : string;
  dragActive : bool
}.

Inductive FormValue : Type :=
  | FormFile (f : File)
  | FormText (s : string).

(** A call of [fetch]. *)
Inductive Request : Type :=
  | POST (url : string) (formData : list (string * FormValue))
  | GET (url : string).

(** The function handed to [setTimeout]; the component has one. *)
Inductive Callback : Type :=
  | ClearNotification.

Record Timer : Type := { due : N; callback : Callback }.

(** What a handler can touch: the state cells, the value of the file
    input behind [inputRef] (absent while the ref is [null]), the clock
    in milliseconds with the timers still pending, the requests issued
    so far and the files handed to the browser for saving. *)
Record World : Type := {
  state : State;
  inputRef : option string;
  clock : N;
  timers : list Timer;
  requests : list Request;
  saved : list (string * string)
}.

(** A response as the component looks at it: the status, and what
    [json()] and [blob()] settle to. *)
Record Response : Type := {
  status : N;
  json : Settled value;
  blob : Settled string
}.

(** [response.ok] *)
Definition ok (r : Response) : bool :=
  ((200 <=? status r) && (status r <=? 299))%N.

Definition initialState : State := {|
  selectedFile := None;
  isUploading := false;
  notification := {| message := ""; type := "" |};
  downloadInfo := None;
  resultStats := VNull;
  resultDetails := VArr [];
  chartData := [];
  gradeRanges := VNull;
  expectedTotal := "";
  subjectCode := "";
  dragActive := false
|}.

Definition initialWorld : World := {|
  state := initialState;
  inputRef := Some "";
  clock := 0;
  timers := [];
  requests := [];
  saved := []
|}.

Definition with_state (f : State -> State) : M World unit := fun w =>
  (inr tt,
   {| state := f (state w); inputRef := inputRef w; clock := clock w;
      timers := timers w; requests := requests w; saved := saved w |}).

(** The state as the handler that is running sees it. *)
Definition snapshot : M World State := fun w => (inr (state w), w).

Definition setSelectedFile (v : option File) : M World unit :=
  with_state (fun s =>
    {| selectedFile := v; isUploading := isUploading s;
       notification := notification s; downloadInfo := downloadInfo s;
       resultStats := resultStats s; resultDetails := resultDetails s;
       chartData := chartData s; gradeRanges := gradeRanges s;
       expectedTotal := expectedTotal s; subjectCode := subjectCode s;
       dragActive := dragActive s |}).

Definition setIsUploading (v : bool) : M World unit :=
  with_state (fun s =>
    {| selectedFile := selectedFile s; isUploading := v;
       notification := notification s; downloadInfo := downloadInfo s;
       resultStats := resultStats s; resultDetails := resultDetails s;
       chartData := chartData s; gradeRanges := gradeRanges s;
       expectedTotal := expectedTotal s; subjectCode := subjectCode s;
       dragActive := dragActive s |}).

Definition setNotification (v : Notification) : M World unit :=
  with_state (fun s =>
    {| selectedFile := selectedFile s; isUploading := isUploading s;
       notification := v; downloadInfo := downloadInfo s;
       resultStats := resultStats s; resultDetails := resultDetails s;
       chartData := chartData s; gradeRanges := gradeRanges s;
       expectedTotal := expectedTotal s; subjectCode := subjectCode s;
       dragActive := dragActive s |}).

Definition setDownloadInfo (v : option DownloadInfo) : M World unit :=
  with_state (fun s =>
    {| selectedFile := selectedFile s; isUploading := isUploading s;
       notification := notification s; downloadInfo := v;
       resultStats := resultStats s; resultDetails := resultDetails s;
       chartData := chartData s; gradeRanges := gradeRanges s;
       expectedTotal := expectedTotal s; subjectCode := subjectCode s;
       dragActive := dragActive s |}).

Definition setResultStats (v : value) : M World unit :=
  with_state (fun s =>
    {| selectedFile := selectedFile s; isUploading := isUploading s;
       notification := notification s; downloadInfo := downloadInfo s;
       resultStats := v; resultDetails := resultDetails s;
       chartData := chartData s; gradeRanges := gradeRanges s;
       expectedTotal := expectedTotal s; subjectCode := subjectCode s;
       dragActive := dragActive s |}).

Definition setResultDetails (v : value) : M World unit :=
  with_state (fun s =>
    {| selectedFile := selectedFile s; isUploading := isUploading s;
       notification := notification s; downloadInfo := downloadInfo s;
       resultStats := resultStats s; resultDetails := v;
       chartData := chartData s; gradeRanges := gradeRanges s;
       expectedTotal := expectedTotal s; subjectCode := subjectCode s;
       dragActive := dragActive s |}).

Definition setChartData (v : list ChartEntry) : M World unit :=
  with_state (fun s =>
    {| selectedFile := selectedFile s; isUploading := isUploading s;
       notification := notification s; downloadInfo := downloadInfo s;
       resultStats := resultStats s; resultDetails := resultDetails s;
       chartData := v; gradeRanges := gradeRanges s;
       expectedTotal := expectedTotal s; subjectCode := subjectCode s;
       dragActive := dragActive s |}).

Definition setGradeRanges (v : value) : M World unit :=
  with_state (fun s =>
    {| selectedFile := selectedFile s; isUploading := isUploading s;
       notification := notification s; downloadInfo := downloadInfo s;
       resultStats := resultStats s; resultDetails := resultDetails s;
       chartData := chartData s; gradeRanges := v;
       expectedTotal := expectedTotal s; subjectCode := subjectCode s;
       dragActive := dragActive s |}).

Definition setExpectedTotal (v : string) : M World unit :=
  with_state (fun s =>
    {| selectedFile := selectedFile s; isUploading := isUploading s;
       notification := notification s; downloadInfo := downloadInfo s;
       resultStats := resultStats s; resultDetails := resultDetails s;
       chartData := chartData s; gradeRanges := gradeRanges s;
       expectedTotal := v; subjectCode := subjectCode s;
       dragActive := dragActive s |}).

Definition setSubjectCode (v : string) : M World unit :=
  with_state (fun s =>
    {| selectedFile := selectedFile s; isUploading := isUploading s;
       notification := notification s; downloadInfo := downloadInfo s;
       resultStats := resultStats s; resultDetails := resultDetails s;
       chartData := chartData s; gradeRanges := gradeRanges s;
       expectedTotal := expectedTotal s; subjectCode := v;
       dragActive := dragActive s |}).

Definition setDragActive (v : bool) : M World unit :=
  with_state (fun s =>
    {| selectedFile := selectedFile s; isUploading := isUploading s;
       notification := notification s; downloadInfo := downloadInfo s;
       resultStats := resultStats s; resultDetails := resultDetails s;
       chartData := chartData s; gradeRanges := gradeRanges s;
       expectedTotal := expectedTotal s; subjectCode := subjectCode s;
       dragActive := v |}).

(** [setTimeout(cb, delay)] *)
Definition setTimeout (cb : Callback) (delay : N) : M World unit := fun w =>
  (inr tt,
   {| state := state w; inputRef := inputRef w; clock := clock w;
      timers := timers w ++ [{| due := clock w + delay; callback := cb |}];
      requests := requests w; saved := saved w |}).

(** [fetch(...)]: the request goes out; its promise settles later. *)
Definition fetch (r : Request) : M World unit := fun w =>
  (inr tt,
   {| state := state w; inputRef := inputRef w; clock := clock w;
      timers := timers w; requests := requests w ++ [r]; saved := saved w |}).

(** [if (inputRef.current) inputRef.current.value = ''] *)
Definition clear_input : M World unit := fun w =>
  (inr tt,
   {| state := state w;
      inputRef := match inputRef w with Some _ => Some "" | None => None end;
      clock := clock w; timers := timers w; requests := requests w;
      saved := saved w |}).

(** The object URL is made from the blob, a link with it is clicked and
    the URL is revoked: the browser saves [blob] under [download]. *)
Definition save_blob (b download : string) : M World unit := fun w =>
  (inr tt,
   {| state := state w; inputRef := inputRef w; clock := clock w;
      timers := timers w; requests := requests w;
      saved := saved w ++ [(b, download)] |}).

(** *** Notifications and timers *)

Definition showNotification (message type : string) : M World unit :=
  setNotification {| message := message; type := type |} ;;
  setTimeout ClearNotification 4000.

Definition run_callback (cb : Callback) : M World unit :=
  match cb with
  | ClearNotification => setNotification {| message := ""; type := "" |}
  end.

(** Timers run by due time, those due together in the order they were
    set. *)
Fixpoint insert_by_due (x : Timer) (l : list Timer) : list Timer :=
  match l with
  | [] => [x]
  | y :: r => if (due x <? due y)%N then x :: l else y :: insert_by_due x r
  end.

Definition firing_order (ts : list Timer) : list Timer :=
  foldl (fun acc x => insert_by_due x acc) [] ts.

Definition is_due (t : N) (x : Timer) : bool := (due x <=? t)%N.

Definition set_clock_timers (t : N) (ts : list Timer) : M World unit := fun w =>
  (inr tt,
   {| state := state w; inputRef := inputRef w; clock := t; timers := ts;
      requests := requests w; saved := saved w |}).

Fixpoint run_callbacks (ts : list Timer) : M World unit :=
  match ts with
  | [] => mret tt
  | x :: r => run_callback (callback x) ;; run_callbacks r
  end.

(** Time passes until [t]: every timer due by then runs and leaves the
    pending list. (No callback of the component sets a timer or reads
    the clock.) *)
Definition advance (t : N) (w : World) : World :=
  let now := N.max (clock w) t in
  let ts := timers w in
  exec (run_callbacks (firing_order (List.filter (is_due now) ts)) ;;
        set_clock_timers now (List.filter (fun x => negb (is_due now x)) ts))
       w.

(** *** File intake *)

Definition resetState : M World unit :=
  setSelectedFile None ;;
  setIsUploading false ;;
  setDownloadInfo None ;;
  setResultStats VNull ;;
  setResultDetails (VArr []) ;;
  setChartData [] ;;
  setGradeRanges VNull ;;
  setExpectedTotal "" ;;
  setSubjectCode "" ;;
  clear_input.

(** [files] is [None] for a [null] file list. *)
Definition handleFileSelect (files : option (list File)) : M World unit :=
  match files with
  | None | Some [] => mret tt
  | Some (file :: _) =>
      if negb (endsWith (toLowerCase (name file)) ".xlsx")
         && negb (endsWith (toLowerCase (name file)) ".xls")
      then showNotification
             "Please select a valid Excel file (.xlsx or .xls)" "error"
      else resetState ;; setSelectedFile (Some file)
  end.

Definition handleDragEnter : M World unit := setDragActive true.
Definition handleDragLeave : M World unit := setDragActive false.
Definition handleDrop (files : option (list File)) : M World unit :=
  setDragActive false ;; handleFileSelect files.

(** *** Submitting *)

Definition gradeSystem : list GradeRange := [
  {| range_grade := "O"; points := 10 |};
  {| range_grade := "A+"; points := 9 |};
  {| range_grade := "A"; points := 8 |};
  {| range_grade := "B+"; points := 7 |};
  {| range_grade := "B"; points := 6 |};
  {| range_grade := "C"; points := 5 |};
  {| range_grade := "U"; points := 0 |}
].

Definition gradeOrder : list string := range_grade <$> gradeSystem.

(** [handleUpload] up to its first [await]: the checks, and the request
    when they pass. *)
Definition handleUpload : M World unit :=
  s ← snapshot;
  match selectedFile s with
  | None => showNotification "Please select a file first" "error"
  | Some file =>
      if String.eqb (expectedTotal s) ""
         || isNaN (Number (expectedTotal s))
         || lt_zero (Number (expectedTotal s))
      then showNotification
             "Please enter a valid expected total number of students" "error"
      else if String.eqb (subjectCode s) ""
              || String.eqb (trim (subjectCode s)) ""
      then showNotification
             "Please enter the subject code for verification" "error"
      else
        setIsUploading true ;;
        fetch (POST "http://localhost:5000/upload"
                 [("file", FormFile file);
                  ("expected_total_students", FormText (expectedTotal s));
                  ("subject_code", FormText (trim (subjectCode s)))])
  end.

Section WithEngine.
Context {engine : Engine}.

(** The [reduce] callback over the students, [acc] being the object
    of counts. Only the keys of [gradeOrder] are read back, and none
    of them is a property of [Object.prototype]. *)
Fixpoint reduce_counts (students : list value) (acc : gmap string nat)
  : error + gmap string nat :=
  match students with
  | [] => inr acc
  | student :: rest =>
      match Get student "Grade" with
      | inl e => inl e
      | inr g =>
          match ToString g with
          | inl e => inl e
          | inr key =>
              reduce_counts rest (<[key := default 0 (acc !! key) + 1]> acc)
          end
      end
  end.

(** [result.details.reduce(..., {})] *)
Definition count_grades (details : value) : error + gmap string nat :=
  match details with
  | VArr students => reduce_counts students ∅
  | VUndefined | VNull => inl (TypeError (cannot_read details "reduce"))
  | _ => inl (TypeError (not_a_function "result.details.reduce"))
  end.

Definition formattedChartData (counts : gmap string nat) : list ChartEntry :=
  (fun g => {| grade := g; Number_of_Students := default 0 (counts !! g) |})
    <$> gradeOrder.

(** The body of the [try] once [fetch] has settled with [r]. (The code
    awaits [fetch] and then [response.json()]; it touches nothing in
    between, so both are taken in one go, [json response] being what
    the second promise settles to.) *)
Definition upload_body (r : Settled Response) : M World unit :=
  response ← await r;
  result ← await (json response);
  if negb (ok response) then
    found ← (if truthy result then lift (Get result "found_subjects")
             else mret result);
    if truthy found then
      err ← lift (Get result "error");
      head ← (if truthy err
              then text ← lift (ToString err); mret (text +:+ " ")
              else mret "");
      subjects ← lift (call_join "result.found_subjects" found ", ");
      throw (Error (head +:+ "Found subjects: " +:+ subjects))
    else
      err ← lift (Get result "error");
      text ← lift (ToString (if truthy err then err
                             else VStr "Failed to upload file"));
      throw (Error text)
  else
    file_id ← lift (Get result "file_id");
    filename ← lift (Get result "filename");
    setDownloadInfo (Some {| fileId := file_id; filename := filename |}) ;;
    summary ← lift (Get result "summary");
    setResultStats summary ;;
    details ← lift (Get result "details");
    setResultDetails details ;;
    showNotification "File processed successfully!" "success" ;;
    counts ← lift (count_grades details);
    setChartData (formattedChartData counts) ;;
    address ← lift (ToString file_id);
    fetch (GET ("http://localhost:5000/grade-ranges/" +:+ address)).

(** [handleUpload] from the moment the upload request settles: the
    [try] body, the [catch] and the [finally]. *)
Definition handleUpload_settled (r : Settled Response) : M World unit :=
  try_finally
    (try_catch (upload_body r)
               (fun error => showNotification (message_of error) "error"))
    (setIsUploading false).

(** The [then]/[then]/[catch] chain on the grade-ranges request, once
    that request has settled with [r]. *)
Definition gradeRanges_settled (r : Settled Response) : M World unit :=
  try_catch
    (res ← await r;
     data ← await (json res);
     ranges ← lift (Get data "grade_ranges");
     if truthy ranges then setGradeRanges ranges else setGradeRanges VNull)
    (fun _ => setGradeRanges VNull).

(** *** Downloading *)

(** [handleDownload] up to its [await]; the address is put together
    inside the [try], whose [catch] shows what is thrown. *)
Definition handleDownload : M World unit :=
  s ← snapshot;
  match downloadInfo s with
  | None => showNotification "No file available for download." "error"
  | Some info =>
      try_catch
        (address ← lift (ToString (fileId info));
         fetch (GET ("http://localhost:5000/download/" +:+ address)))
        (fun error => showNotification (message_of error) "error")
  end.

(** [handleDownload] from the moment its request settles; [info] is
    the [downloadInfo] the handler was created with. The name under
    which the link saves is set before the link is clicked. *)
Definition handleDownload_settled (info : DownloadInfo) (r : Settled Response)
  : M World unit :=
  try_catch
    (response ← await r;
     (if negb (ok response)
      then throw (Error "Download failed from server.")
      else mret tt) ;;
     b ← await (blob response);
     download ← lift (ToString (filename info));
     save_blob b download ;;
     showNotification "File downloaded successfully!" "success")
    (fun error => showNotification (message_of error) "error").
End WithEngine.

(** *** What the markup shows *)

(** [handleFileChangeEvent]: the picker hands over [event.target.files]. *)
Definition handleFileChangeEvent (files : option (list File)) : M World unit :=
  handleFileSelect files.

(** [disabled={!selectedFile || isUploading}] on the upload button. *)
Definition upload_disabled (s : State) : bool :=
  match selectedFile s with
  | None => true
  | Some _ => isUploading s
  end.

(** [{downloadInfo && (<button ...>)}]: the download button is there. *)
Definition download_offered (s : State) : bool :=
  match downloadInfo s with
  | Some _ => true
  | None => false
  end.

(** [text.replace(/_/g, ' ')] *)
Fixpoint replace_underscores (s : string) : string :=
  match s with
  | "" => ""
  | String c r =>
      String (if Ascii.eqb c "_" then " " else c) (replace_underscores r)
  end.

Section Rendering.
Context {engine : Engine}.

(** The value of the "Grading Method" card:
    [resultStats.grading_method?.replace(/_/g, ' ')]. Only a string has
    [replace]. *)
Definition grading_method_label (stats : value) : error + value :=
  match Get stats "grading_method" with
  | inl e => inl e
  | inr VUndefined | inr VNull => inr VUndefined
  | inr (VStr s) => inr (VStr (replace_underscores s))
  | inr _ =>
      inl (TypeError (not_a_function "resultStats.grading_method?.replace"))
  end.

(** The cards of the grade-ranges grid, inside the results section:
    [gradeRanges ? gradeSystem.ranges.map(({ grade }) =>
       gradeRanges[grade] && (<div key={grade}>...)) : null],
    each card with its grade and the range it displays. *)
Definition range_cards (ranges : value) : list (string * value) :=
  if truthy ranges then
    omap (fun g =>
            match Get ranges g with
            | inr v => if truthy v then Some (g, v) else None
            | inl _ => None
            end)
         gradeOrder
  else [].
End Rendering.

End App.

(* ================================================================= *)
(** ** The vocabulary of the specification *)
(* ================================================================= *)

Module Spec.
Import JS App.

(** [sub] occurs in [s]. *)
Definition contains (s sub : string) : Prop :=
  ∃ before after, s = before +:+ sub +:+ after.

Definition is_letter (c : ascii) : bool :=
  let n := code c in
  ((65 <=? n) && (n <=? 90) || (97 <=? n) && (n <=? 122))%N.

(** The same character, or the same letter of [A]-[Z] in the other
    case. *)
Definition same_letter (a b : ascii) : bool :=
  Ascii.eqb a b
  || is_letter a && is_letter b
     && ((code a =? code b + 32) || (code b =? code a + 32))%N.

Fixpoint eq_ignoring_case (s t : string) : bool :=
  match s, t with
  | "", "" => true
  | String a s', String b t' => same_letter a b && eq_ignoring_case s' t'
  | _, _ => false
  end.

(** The name ends in [ext], whatever the case of its letters. *)
Definition ends_with_ignoring_case (name ext : string) : Prop :=
  ∃ stem tail, name = stem +:+ tail ∧ eq_ignoring_case tail ext = true.

(** The characters of the two accepted extensions, and a text made of
    them. *)
Definition extension_char (b : ascii) : bool :=
  Ascii.eqb b "." || Ascii.eqb b "x" || Ascii.eqb b "l" || Ascii.eqb b "s".

Fixpoint extension_text (s : string) : bool :=
  match s with
  | "" => true
  | String b r => extension_char b && extension_text r
  end.

(** An accepted file name. *)
Definition excel_name (name : string) : Prop :=
  ends_with_ignoring_case name ".xlsx" ∨ ends_with_ignoring_case name ".xls".

(** A student as the service reports it. *)
Record StudentRecord : Type := {
  Name : string;
  Marks : option number;
  Grade : string;
  Grade_Points : option number
}.

Definition nullable (n : option number) : value :=
  match n with Some x => VNum x | None => VNull end.

(** The record as an element of [details]. *)
Definition record_value (r : StudentRecord) : value :=
  VObj [("Name", VStr (Name r)); ("Marks", nullable (Marks r));
        ("Grade", VStr (Grade r)); ("Grade_Points", nullable (Grade_Points r))].

Definition canonical : list string := ["O"; "A+"; "A"; "B+"; "B"; "C"; "U"].

(** One counter per canonical label, all at zero. *)
Definition zero_counters : list (string * nat) := (fun g => (g, 0)) <$> canonical.

(** The counter of label [g] goes up by one; a label without a counter
    changes nothing. *)
Definition increment (g : string) (counters : list (string * nat))
  : list (string * nat) :=
  (fun c => if String.eqb c.1 g then (c.1, S c.2) else c) <$> counters.

(** The chart aggregation as the specification words it. *)
Definition aggregate (details : list StudentRecord) : list ChartEntry :=
  (fun c => {| grade := c.1; Number_of_Students := c.2 |})
    <$> foldl (fun counters r => increment (Grade r) counters)
              zero_counters details.

(** How often the grade [g] occurs in [details]. *)
Definition occurrences (g : string) (details : list StudentRecord) : nat :=
  length (List.filter (fun r => String.eqb (Grade r) g) details).

(** The grade-ranges request did not deliver a [grade_ranges] field:
    the request failed, the body was not JSON, or the body has no such
    field. *)
Definition has_field (k : string) (v : value) : bool :=
  match v with
  | VObj props => existsb (fun p => String.eqb p.1 k) props
  | _ => false
  end.

Inductive ranges_fetch_failed : Settled Response -> Prop :=
  | network_error e :
      ranges_fetch_failed (Rejected e)
  | malformed_body res e :
      json res = Rejected e -> ranges_fetch_failed (Fulfilled res)
  | no_grade_ranges res data :
      json res = Fulfilled data -> has_field "grade_ranges" data = false ->
      ranges_fetch_failed (Fulfilled res).

(** The checks of [submit()] on the expected total. *)
Definition non_numeric (s : string) : Prop := isNaN (Number s) = true.
Definition negative (s : string) : Prop := lt_zero (Number s) = true.

(** Two notifications, the second while the first one's timer is still
    pending: [m1] shown at time [t1], [m2] at [t2]. *)
Definition notify_twice (w : World) (t1 : N) (m1 k1 : string)
    (t2 : N) (m2 k2 : string) : World :=
  exec (showNotification m2 k2)
    (advance t2 (exec (showNotification m1 k1) (advance t1 w))).

(** An engine to run the examples with: the wording V8 gives its
    [TypeError]s; a number is written as its sign, its digits and, when
    not zero, its decimal exponent (the examples contain no numbers). *)
Definition example_engine : Engine := {|
  NumberToString n :=
    match n with
    | NaN => "NaN"
    | Inf neg => (if neg then "-" else "") +:+ "Infinity"
    | Dec neg m e =>
        (if neg && negb (rounds_to_zero m e) then "-" else "")
        +:+ pretty m +:+ (if (e =? 0)%Z then "" else "e" +:+ pretty e)
    end;
  cannot_read v k :=
    "Cannot read properties of "
    +:+ (match v with VNull => "null" | _ => "undefined" end)
    +:+ " (reading '" +:+ k +:+ "')";
  not_a_function what := what +:+ " is not a function";
  cannot_convert _ := "Cannot convert object to primitive value"
|}.

(** The three messages with which [submit()] turns an input down. *)
Definition validation_messages : list string := [
  "Please select a file first";
  "Please enter a valid expected total number of students";
  "Please enter the subject code for verification"
].

(** The request [submit()] issues for a staged file and the two
    parameters. *)
Definition upload_request (file : File) (total subject : string) : Request :=
  POST "http://localhost:5000/upload"
    [("file", FormFile file);
     ("expected_total_students", FormText total);
     ("subject_code", FormText (trim subject))].

(** A world in which a file is staged and both parameters are typed
    in. *)
Definition staged_world (file : File) (total subject : string) : World :=
  exec (setSelectedFile (Some file) ;; setExpectedTotal total ;;
        setSubjectCode subject) initialWorld.

(** A result as the service sends it after grading, and the response
    that carries it. *)
Definition sample_result : value :=
  VObj [("file_id", VStr "f1");
        ("filename", VStr "graded_marks.xlsx");
        ("summary", VObj [("grading_method", VStr "relative_grading")]);
        ("details",
         VArr [record_value {| Name := "Asha"; Marks := None; Grade := "O";
                               Grade_Points := None |};
               record_value {| Name := "Ravi"; Marks := None; Grade := "B";
                               Grade_Points := None |}])].

Definition sample_response : Response :=
  {| status := 200; json := Fulfilled sample_result;
     blob := Rejected (Failure "body already read") |}.

(** A world in which an upload has just been graded. *)
Definition graded_world : World := Eval vm_compute in
  exec (handleUpload_settled (engine := example_engine)
          (Fulfilled sample_response))
    (exec handleUpload
       (staged_world {| name := "marks.xlsx"; size := 2048 |} "2" "CS101")).

(** No notification is displayed. *)
Definition no_notification : Notification := {| message := ""; type := "" |}.

(** The timer that a notification shown at time [t] sets. *)
Definition clearing_timer (t : N) : Timer :=
  {| due := t + 4000; callback := ClearNotification |}.

(** The message [m2] of the second notification is still displayed once
    the timer of the first one has fired. *)
Definition second_survives_first_timer (w : World) (t1 : N) (m1 k1 : string)
    (t2 : N) (m2 k2 : string) : Prop :=
  message (notification
             (state (advance (t1 + 4000) (notify_twice w t1 m1 k1 t2 m2 k2))))
  = m2.

End Spec.

(* ================================================================= *)
(** ** Notions used by the further properties *)
(* ================================================================= *)

Module Notions.
Import JS App Spec.

Definition is_digit (c : ascii) : bool :=
  match digit_of 10 c with Some _ => true | None => false end.

(** A text of decimal digits only. *)
Fixpoint all_digits (s : string) : bool :=
  match s with
  | "" => true
  | String c r => is_digit c && all_digits r
  end.

(** A text of zeros only. *)
Fixpoint all_zeros (s : string) : bool :=
  match s with
  | "" => true
  | String c r => Ascii.eqb c "0" && all_zeros r
  end.

(** A text of white space only. *)
Fixpoint all_white (s : string) : bool :=
  match s with
  | "" => true
  | String c r => is_white c && all_white r
  end.

Definition starts_white (s : string) : bool :=
  match s with
  | "" => false
  | String c _ => is_white c
  end.

Fixpoint ends_white (s : string) : bool :=
  match s with
  | "" => false
  | String c "" => is_white c
  | String _ r => ends_white r
  end.

Fixpoint has_underscore (s : string) : bool :=
  match s with
  | "" => false
  | String c r => Ascii.eqb c "_" || has_underscore r
  end.

(** The test of [handleUpload] on the expected total, and the one on
    the subject code. *)
Definition total_refused (total : string) : bool :=
  String.eqb total "" || isNaN (Number total) || lt_zero (Number total).

Definition subject_refused (subject : string) : bool :=
  String.eqb subject "" || String.eqb (trim subject) "".

(** A timer due by [now] is among [ts]. *)
Definition fired (now : N) (ts : list Timer) : bool := existsb (is_due now) ts.

(** The state cells that only a file selection, a reset or typing
    writes, with the file input. *)
Definition same_inputs (w w' : World) : Prop :=
  selectedFile (state w') = selectedFile (state w)
  ∧ expectedTotal (state w') = expectedTotal (state w)
  ∧ subjectCode (state w') = subjectCode (state w)
  ∧ dragActive (state w') = dragActive (state w)
  ∧ inputRef w' = inputRef w.

(** The cells a graded upload fills. *)
Definition same_result (w w' : World) : Prop :=
  downloadInfo (state w') = downloadInfo (state w)
  ∧ resultStats (state w') = resultStats (state w)
  ∧ resultDetails (state w') = resultDetails (state w)
  ∧ chartData (state w') = chartData (state w).

End Notions.

(* ================================================================= *)
(** ** Properties *)
(* ================================================================= *)

Import JS App Spec.

(** *** Strings *)

Lemma append_cons (x : ascii) (a b : string) :
  String x a +:+ b = String x (a +:+ b).
Proof. reflexivity. Qed.

Lemma append_empty_l (a : string) : "" +:+ a = a.
Proof. reflexivity. Qed.

Lemma append_assoc (a b c : string) : (a +:+ b) +:+ c = a +:+ (b +:+ c).
Proof.
  induction a as [|x a IH]; [done|]. rewrite !append_cons. by f_equal.
Qed.

Lemma append_empty_r (a : string) : a +:+ "" = a.
Proof.
  induction a as [|x a IH]; [done|]. rewrite append_cons. by f_equal.
Qed.

Lemma length_append (a b : string) :
  String.length (a +:+ b) = String.length a + String.length b.
Proof.
  induction a as [|x a IH]; [done|]. rewrite append_cons. simpl. by f_equal.
Qed.

Lemma substring_all (s : string) : String.substring 0 (String.length s) s = s.
Proof. induction s as [|x s IH]; simpl; [done | by f_equal]. Qed.

Lemma substring_skip (a b : string) (n : nat) :
  String.substring (String.length a) n (a +:+ b) = String.substring 0 n b.
Proof. induction a as [|x a IH]; [done|]. rewrite append_cons. apply IH. Qed.

Lemma substring_split (s : string) (n m : nat) :
  n + m = String.length s →
  s = String.substring 0 n s +:+ String.substring n m s.
Proof.
  revert n m. induction s as [|x s IH]; intros n m Hlen; simpl in *.
  - destruct n; [|lia]. by destruct m.
  - destruct n as [|n]; simpl.
    + destruct m as [|m]; [lia|]. rewrite append_empty_l. f_equal.
      injection Hlen as Hlen. subst m. symmetry. apply substring_all.
    + rewrite append_cons. f_equal. apply IH. lia.
Qed.

Lemma eqb_true (a b : string) : String.eqb a b = true ↔ a = b.
Proof. apply String.eqb_eq. Qed.

(** [endsWith] finds exactly the suffixes. *)
Lemma endsWith_suffix (s t : string) :
  endsWith s t = true ↔ ∃ stem, s = stem +:+ t.
Proof.
  unfold endsWith. split.
  - destruct (Nat.leb_spec (String.length t) (String.length s)) as [Hle|]; [|done].
    intros Heq%eqb_true.
    exists (String.substring 0 (String.length s - String.length t) s).
    etrans; [apply (substring_split s (String.length s - String.length t)
                      (String.length t)); lia|].
    by rewrite Heq.
  - intros [stem ->]. rewrite length_append.
    destruct (Nat.leb_spec (String.length t)
                (String.length stem + String.length t)) as [_|]; [|lia].
    replace (String.length stem + String.length t - String.length t)
      with (String.length stem) by lia.
    rewrite substring_skip, substring_all. by apply eqb_true.
Qed.

Lemma toLowerCase_append (a b : string) :
  toLowerCase (a +:+ b) = toLowerCase a +:+ toLowerCase b.
Proof.
  induction a as [|x a IH]; [done|]. rewrite append_cons. simpl.
  rewrite append_cons. by f_equal.
Qed.

(** A split of the lowered name comes from a split of the name. *)
Lemma toLowerCase_split (s p t : string) :
  toLowerCase s = p +:+ t →
  ∃ a b, s = a +:+ b ∧ toLowerCase a = p ∧ toLowerCase b = t.
Proof.
  revert s. induction p as [|x p IH]; intros s Heq.
  - by exists "", s.
  - rewrite append_cons in Heq. destruct s as [|y s]; simpl in *; [done|].
    injection Heq as Hx Heq. destruct (IH _ Heq) as (a & b & -> & Ha & Hb).
    exists (String y a), b. simpl. by rewrite Hx, Ha.
Qed.

Lemma lower_char_same_letter (a b : ascii) :
  extension_char b = true →
  Ascii.eqb (lower_char a) b = same_letter a b.
Proof.
  unfold extension_char. intros Hb.
  repeat (apply orb_prop in Hb as [Hb|Hb]);
    apply Ascii.eqb_eq in Hb; subst b;
    destruct a as [[] [] [] [] [] [] [] []]; reflexivity.
Qed.

Lemma toLowerCase_eq_ignoring_case (ext s : string) :
  extension_text ext = true →
  String.eqb (toLowerCase s) ext = eq_ignoring_case s ext.
Proof.
  revert s. induction ext as [|b ext IH]; intros s Hext.
  - by destruct s.
  - simpl in Hext. apply andb_prop in Hext as [Hb Hext].
    destruct s as [|a s]; [done|]. simpl.
    rewrite <- (lower_char_same_letter a b Hb), <- (IH s Hext). done.
Qed.

(** The test of [handleFileSelect] on one extension is the
    case-insensitive suffix test. *)
Lemma endsWith_toLowerCase (name ext : string) :
  extension_text ext = true →
  endsWith (toLowerCase name) ext = true ↔ ends_with_ignoring_case name ext.
Proof.
  intros Hext. rewrite endsWith_suffix. split.
  - intros [stem Heq]. apply toLowerCase_split in Heq as (a & b & -> & _ & Hb).
    exists a, b. split; [done|].
    rewrite <- toLowerCase_eq_ignoring_case by done. by apply eqb_true.
  - intros (stem & tail & -> & Heq). exists (toLowerCase stem).
    rewrite toLowerCase_append. f_equal. apply eqb_true.
    by rewrite toLowerCase_eq_ignoring_case.
Qed.

(** Runs the plumbing of a handler (sequencing, the state cells, timers
    and requests), leaving the tests it makes on its inputs. *)
Ltac run :=
  cbv beta iota zeta delta
    [exec mbind M_bind mret M_ret throw lift await try_catch try_finally
     snapshot with_state showNotification setNotification setTimeout fetch
     setSelectedFile setIsUploading setDownloadInfo setResultStats
     setResultDetails setChartData setGradeRanges setExpectedTotal
     setSubjectCode setDragActive clear_input save_blob resetState
     run_callback];
  cbn [state inputRef clock timers requests saved
       selectedFile isUploading notification downloadInfo resultStats
       resultDetails chartData gradeRanges expectedTotal subjectCode
       dragActive message type fst snd].

(** Runs the sequencing only, leaving the state cells folded: for the
    long handlers, whose tests are settled before their writes are
    looked at. *)
Ltac step :=
  cbv beta iota zeta delta
    [mbind M_bind mret M_ret throw lift await try_catch try_finally];
  cbn [fst snd negb].

Lemma excel_name_test (name : string) :
  excel_name name ↔
  endsWith (toLowerCase name) ".xlsx" || endsWith (toLowerCase name) ".xls" = true.
Proof.
  unfold excel_name.
  rewrite <- !endsWith_toLowerCase by reflexivity.
  rewrite orb_true_iff. done.
Qed.

(** *** File intake *)

(** C4. A candidate whose name ends neither in .xlsx nor in .xls
    (whatever the case of the letters) gets exactly one error
    notification (the message is displayed and its one clearing timer is
    set) and nothing else changes: the staged file, the parameters, the
    upload result, the grade ranges and the chart aggregate stay as they
    were, as do the busy flag, the file input and the requests. *)
Theorem C4_selectFile_rejects_other_names
    (file : File) (others : list File) (w : World) :
  ¬ excel_name (name file) →
  let w' := exec (handleFileSelect (Some (file :: others))) w in
  notification (state w') =
    {| message := "Please select a valid Excel file (.xlsx or .xls)";
       type := "error" |}
  ∧ timers w' = (timers w ++ [{| due := clock w + 4000;
                                 callback := ClearNotification |}])%list
  ∧ selectedFile (state w') = selectedFile (state w)
  ∧ expectedTotal (state w') = expectedTotal (state w)
  ∧ subjectCode (state w') = subjectCode (state w)
  ∧ downloadInfo (state w') = downloadInfo (state w)
  ∧ resultStats (state w') = resultStats (state w)
  ∧ resultDetails (state w') = resultDetails (state w)
  ∧ gradeRanges (state w') = gradeRanges (state w)
  ∧ chartData (state w') = chartData (state w)
  ∧ isUploading (state w') = isUploading (state w)
  ∧ inputRef w' = inputRef w
  ∧ requests w' = requests w.
Proof.
  intros Hname. rewrite excel_name_test in Hname.
  apply not_true_is_false, orb_false_elim in Hname as [Hx Hs].
  unfold handleFileSelect. rewrite Hx, Hs. cbn. repeat split.
Qed.

Lemma C4_selectFile_rejects_other_names_witness :
  let w' := exec (handleFileSelect (Some [{| name := "marks.csv"; size := 12 |}]))
                 initialWorld in
  notification (state w') =
    {| message := "Please select a valid Excel file (.xlsx or .xls)";
       type := "error" |}
  ∧ timers w' = [{| due := 4000; callback := ClearNotification |}]
  ∧ selectedFile (state w') = None.
Proof.
  assert (Hname : ¬ excel_name "marks.csv")
    by (rewrite excel_name_test; vm_compute; discriminate).
  destruct (C4_selectFile_rejects_other_names
              {| name := "marks.csv"; size := 12 |} [] initialWorld Hname)
    as (Hn & Ht & Hf & _).
  intros w'. split; [exact Hn | split; [exact Ht | exact Hf]].
Defined.

(** C5. Selecting a file with an accepted name, in any state (so also
    after a successful result), clears the download info, the summary,
    the details, the grade ranges, the chart aggregate, both submission
    parameters and the busy flag, and leaves the new file as the staged
    file. *)
Theorem C5_selectFile_clears_prior_result
    (file : File) (others : list File) (w : World) :
  excel_name (name file) →
  let w' := exec (handleFileSelect (Some (file :: others))) w in
  selectedFile (state w') = Some file
  ∧ downloadInfo (state w') = None
  ∧ resultStats (state w') = VNull
  ∧ resultDetails (state w') = VArr []
  ∧ gradeRanges (state w') = VNull
  ∧ chartData (state w') = []
  ∧ expectedTotal (state w') = ""
  ∧ subjectCode (state w') = ""
  ∧ isUploading (state w') = false.
Proof.
  intros Hname. rewrite excel_name_test in Hname.
  unfold handleFileSelect.
  destruct (endsWith (toLowerCase (name file)) ".xlsx");
    destruct (endsWith (toLowerCase (name file)) ".xls");
    try discriminate; cbn; repeat split.
Qed.

(** *** The file-selection entry point *)

(** C10. With a null or an empty file list the entry point returns
    leaving the whole world as it was (no state change, no notification,
    no timer); with several files it does what it does with the first
    one alone. *)
Theorem C10_selectFile_empty_and_first (w : World) :
  handleFileSelect None w = (inr tt, w)
  ∧ handleFileSelect (Some []) w = (inr tt, w)
  ∧ ∀ (file : File) (others : list File),
      handleFileSelect (Some (file :: others)) w
      = handleFileSelect (Some [file]) w.
Proof. repeat split. Qed.

(** *** Submitting *)

Lemma trim_empty_test (s : string) :
  String.eqb s "" || String.eqb (trim s) "" = true ↔ trim s = "".
Proof.
  rewrite orb_true_iff, !eqb_true. split; [|by right].
  intros [->|]; done.
Qed.

(** Closes the goal of a turned-down submission: every part is read
    off the world the handler leaves. *)
Ltac turned_down :=
  repeat split; try reflexivity; rewrite !elem_of_cons; auto.

(** C2. Whenever the staged file is absent, or the expected total is
    empty, is not a number for [Number], or is below zero, or the
    subject code is empty after trimming, [submit()] issues no request
    (the request log is as before, the busy flag untouched) and emits
    one error notification carrying one of the three validation
    messages. The expected totals "", "-1" and "abc" are such inputs. *)
Theorem C2_submit_rejects_before_any_request (w : World) :
  (selectedFile (state w) = None
   ∨ expectedTotal (state w) = ""
   ∨ non_numeric (expectedTotal (state w))
   ∨ negative (expectedTotal (state w))
   ∨ trim (subjectCode (state w)) = "" →
   let w' := exec handleUpload w in
   requests w' = requests w
   ∧ type (notification (state w')) = "error"
   ∧ message (notification (state w')) ∈ validation_messages
   ∧ timers w' = (timers w ++ [{| due := clock w + 4000;
                                  callback := ClearNotification |}])%list
   ∧ isUploading (state w') = isUploading (state w))
  ∧ (negative "-1" ∧ non_numeric "abc")
  ∧ (expectedTotal (state w) ∈ ["" ; "-1"; "abc"] →
     requests (exec handleUpload w) = requests w).
Proof.
  assert (Hgen : selectedFile (state w) = None
   ∨ expectedTotal (state w) = ""
   ∨ non_numeric (expectedTotal (state w))
   ∨ negative (expectedTotal (state w))
   ∨ trim (subjectCode (state w)) = "" →
   let w' := exec handleUpload w in
   requests w' = requests w
   ∧ type (notification (state w')) = "error"
   ∧ message (notification (state w')) ∈ validation_messages
   ∧ timers w' = (timers w ++ [{| due := clock w + 4000;
                                  callback := ClearNotification |}])%list
   ∧ isUploading (state w') = isUploading (state w)).
  { unfold non_numeric, negative, handleUpload, validation_messages.
    intros Hbad. run.
    destruct (selectedFile (state w)) as [file|] eqn:Hsel; cbn;
      [|turned_down].
    destruct (String.eqb (expectedTotal (state w)) "") eqn:Hempty; cbn;
      [turned_down|].
    destruct (isNaN (Number (expectedTotal (state w)))) eqn:Hnan; cbn;
      [turned_down|].
    destruct (lt_zero (Number (expectedTotal (state w)))) eqn:Hneg; cbn;
      [turned_down|].
    destruct (String.eqb (subjectCode (state w)) ""
              || String.eqb (trim (subjectCode (state w))) "") eqn:Hsub; cbn;
      [turned_down|].
    exfalso. destruct Hbad as [?|[Hbad|[?|[?|Hbad]]]]; try done.
    - apply eqb_true in Hbad. congruence.
    - apply trim_empty_test in Hbad. congruence. }
  split; [exact Hgen|]. split; [by repeat split|].
  intros Hin. apply Hgen.
  rewrite !elem_of_cons, elem_of_nil in Hin.
  destruct Hin as [->|[->|[->|[]]]]; unfold non_numeric, negative; auto.
Qed.

Lemma C2_submit_rejects_before_any_request_witness :
  let w := staged_world {| name := "marks.xlsx"; size := 2048 |} "-1" "CS101" in
  negative (expectedTotal (state w))
  ∧ requests (exec handleUpload w) = []
  ∧ type (notification (state (exec handleUpload w))) = "error".
Proof.
  intros w.
  assert (Hneg : negative (expectedTotal (state w))) by reflexivity.
  destruct (proj1 (C2_submit_rejects_before_any_request w)
              (or_intror (or_intror (or_intror (or_introl Hneg)))))
    as (Hreq & Hty & _).
  split; [exact Hneg | split; [exact Hreq | exact Hty]].
Defined.

(** C8. A run of [submit()] that passes the checks sets the busy flag
    and then issues the upload request; and however that request
    settles (a committed result, a non-success response, a thrown
    error), in whatever state the component is by then, the rest of the
    run ends normally with the busy flag cleared. *)
Theorem C8_busy_flag_set_then_cleared {engine : Engine} (w : World) (file : File) :
  selectedFile (state w) = Some file →
  expectedTotal (state w) ≠ "" →
  ¬ non_numeric (expectedTotal (state w)) →
  ¬ negative (expectedTotal (state w)) →
  trim (subjectCode (state w)) ≠ "" →
  let request :=
    upload_request file (expectedTotal (state w)) (subjectCode (state w)) in
  exec handleUpload w = exec (fetch request) (exec (setIsUploading true) w)
  ∧ isUploading (state (exec handleUpload w)) = true
  ∧ requests (exec handleUpload w) = (requests w ++ [request])%list
  ∧ ∀ (r : Settled Response) (later : World),
      ∃ w', handleUpload_settled r later = (inr tt, w')
            ∧ isUploading (state w') = false.
Proof.
  intros Hfile Hempty Hnan Hneg Hsub request. unfold non_numeric, negative in *.
  assert (Hrun : exec handleUpload w
                 = exec (fetch request) (exec (setIsUploading true) w)).
  { unfold request, upload_request, handleUpload. run. rewrite Hfile.
    destruct (String.eqb (expectedTotal (state w)) "") eqn:E1;
      [by apply eqb_true in E1|].
    destruct (isNaN (Number (expectedTotal (state w)))); [done|].
    destruct (lt_zero (Number (expectedTotal (state w)))); [done|].
    destruct (String.eqb (subjectCode (state w)) ""
              || String.eqb (trim (subjectCode (state w))) "") eqn:E2;
      [by apply trim_empty_test in E2|].
    cbn [orb]. run. by rewrite Hfile. }
  split; [exact Hrun|]. rewrite Hrun. split; [done|]. split; [done|].
  intros r later. unfold handleUpload_settled, try_finally, try_catch.
  destruct (upload_body r later) as [[e|[]] w1]; run; eauto.
Qed.

Lemma C8_busy_flag_set_then_cleared_witness :
  let file := {| name := "marks.xlsx"; size := 2048 |} in
  let w := staged_world file "45" " CS101 " in
  isUploading (state (exec handleUpload w)) = true
  ∧ requests (exec handleUpload w) = [upload_request file "45" " CS101 "]
  ∧ isUploading
      (state (exec (handleUpload_settled (engine := example_engine)
                      (Rejected (Failure "Failed to fetch")))
                   (exec handleUpload w))) = false.
Proof.
  intros file w.
  assert (H1 : selectedFile (state w) = Some file) by reflexivity.
  assert (H2 : expectedTotal (state w) ≠ "") by discriminate.
  assert (H3 : ¬ non_numeric (expectedTotal (state w)))
    by (vm_compute; discriminate).
  assert (H4 : ¬ negative (expectedTotal (state w)))
    by (vm_compute; discriminate).
  assert (H5 : trim (subjectCode (state w)) ≠ "")
    by (vm_compute; discriminate).
  destruct (C8_busy_flag_set_then_cleared (engine := example_engine)
              w file H1 H2 H3 H4 H5) as (_ & Hbusy & Hreq & Hdone).
  split; [exact Hbusy | split; [exact Hreq |]].
  destruct (Hdone (Rejected (Failure "Failed to fetch")) (exec handleUpload w))
    as (w' & Hrun & Hidle).
  unfold exec at 1. rewrite Hrun. exact Hidle.
Defined.

(** *** Downloading *)

(** C9. While there is no download info (no upload has succeeded),
    [download()] issues no request and emits the error notification
    "No file available for download.". *)
Theorem C9_download_without_result {engine : Engine} (w : World) :
  downloadInfo (state w) = None →
  let w' := exec handleDownload w in
  requests w' = requests w
  ∧ notification (state w') =
      {| message := "No file available for download."; type := "error" |}
  ∧ timers w' = (timers w ++ [{| due := clock w + 4000;
                                 callback := ClearNotification |}])%list.
Proof.
  intros Hnone. unfold handleDownload. run. rewrite Hnone. by run.
Qed.

Lemma C9_download_without_result_witness :
  let w' := exec (handleDownload (engine := example_engine)) initialWorld in
  requests w' = []
  ∧ notification (state w') =
      {| message := "No file available for download."; type := "error" |}
  ∧ timers w' = [{| due := 4000; callback := ClearNotification |}].
Proof.
  exact (C9_download_without_result (engine := example_engine)
           initialWorld eq_refl).
Defined.

Lemma C5_selectFile_clears_prior_result_witness :
  let file := {| name := "Section-B.XLS"; size := 4096 |} in
  let w' := exec (handleFileSelect (Some [file])) graded_world in
  downloadInfo (state graded_world) ≠ None
  ∧ selectedFile (state w') = Some file
  ∧ downloadInfo (state w') = None
  ∧ chartData (state w') = [].
Proof.
  intros file w'.
  assert (Hname : excel_name (name file))
    by (rewrite excel_name_test; reflexivity).
  destruct (C5_selectFile_clears_prior_result file [] graded_world Hname)
    as (Hfile & Hinfo & _ & _ & _ & Hchart & _).
  split; [discriminate | split; [exact Hfile | split; [exact Hinfo | exact Hchart]]].
Defined.

(** *** A non-success upload response *)

Lemma ToString_array {engine : Engine} (items : list value) :
  ToString (VArr items) = join "," items.
Proof.
  unfold join. cbn [ToString].
  match goal with
  | |- match ?inner items with _ => _ end = _ =>
      assert (Heach : inner items = element_texts items);
      [|by rewrite Heach]
  end.
  induction items as [|x items IH]; [done|].
  cbn [element_texts]. rewrite <- IH. by destruct x.
Qed.

(** A list of strings always joins. *)
Lemma join_strings_only {engine : Engine} (sep : string) (subjects : list string) :
  join sep (VStr <$> subjects) = inr (join_strings sep subjects).
Proof.
  unfold join.
  assert (Htexts : element_texts (VStr <$> subjects) = inr subjects);
    [|by rewrite Htexts].
  induction subjects as [|t subjects IH]; [done|].
  cbn [fmap list_fmap element_texts element_text ToString].
  change (list_fmap string value VStr subjects) with (VStr <$> subjects).
  by rewrite IH.
Qed.

Lemma contains_prefix (a rest : string) : contains (a +:+ rest) a.
Proof. by exists "", rest. Qed.

Lemma contains_suffix (start a : string) : contains (start +:+ a) a.
Proof. exists start, "". by rewrite append_empty_r. Qed.

Lemma contains_empty (s : string) : contains s "".
Proof. by exists "", s. Qed.

(** What the [try] body does with a non-success response whose body is
    an object with a [found_subjects] list: it throws, having written
    nothing. What it throws is the error it builds, unless converting
    the server's [error] or, after that, an element of the list throws
    first. *)
Lemma upload_body_found_subjects {engine : Engine}
    (w : World) (response : Response) (props : list (string * value))
    (items : list value) :
  ok response = false →
  json response = Fulfilled (VObj props) →
  own_property "found_subjects" props = VArr items →
  upload_body (Fulfilled response) w
  = (inl (match
            (if truthy (own_property "error" props)
             then match ToString (own_property "error" props) with
                  | inl e => inl e
                  | inr text => inr (text +:+ " ")
                  end
             else inr "")
          with
          | inl e => e
          | inr head =>
              match join ", " items with
              | inl e => e
              | inr listing => Error (head +:+ "Found subjects: " +:+ listing)
              end
          end), w).
Proof.
  intros Hok Hjson Hfound. unfold upload_body. step.
  rewrite Hjson, Hok. step. cbn [truthy Get]. rewrite Hfound.
  cbn [truthy call_join].
  destruct (truthy (own_property "error" props)); step;
    [destruct (ToString (own_property "error" props)); [done|]|];
    by destruct (join ", " items).
Qed.

(** C6. A response with a non-success status whose JSON body is an
    object with a [found_subjects] list gives one error notification
    and commits nothing of a result: download info, summary, details,
    chart aggregate, grade ranges and staged file stay as they were, no
    further request goes out, and the busy flag is cleared. Where the
    list can be rendered (its elements have a text, as strings always
    do) and so can the server's [error] when there is one, the message
    is that error followed by a space, then "Found subjects: ", then the
    elements joined with ", ": it contains the joined list, and the
    error text when [error] is a string. Where a conversion throws
    instead, the message is that of the thrown error. For status 409
    and the body [{error:"mismatch", found_subjects:["CS101","CS102"]}]
    the message is "mismatch Found subjects: CS101, CS102". *)
Theorem C6_found_subjects_in_error_message {engine : Engine}
    (w : World) (code : N) (props : list (string * value))
    (items : list value) (b : Settled string) :
  (code < 200 ∨ 299 < code)%N →
  own_property "found_subjects" props = VArr items →
  let response :=
    {| status := code; json := Fulfilled (VObj props); blob := b |} in
  let error_text := own_property "error" props in
  let w' := exec (handleUpload_settled (Fulfilled response)) w in
  let msg := message (notification (state w')) in
  (type (notification (state w')) = "error"
   ∧ timers w' = (timers w ++ [{| due := clock w + 4000;
                                  callback := ClearNotification |}])%list
   ∧ downloadInfo (state w') = downloadInfo (state w)
   ∧ resultStats (state w') = resultStats (state w)
   ∧ resultDetails (state w') = resultDetails (state w)
   ∧ chartData (state w') = chartData (state w)
   ∧ gradeRanges (state w') = gradeRanges (state w)
   ∧ selectedFile (state w') = selectedFile (state w)
   ∧ requests w' = requests w
   ∧ isUploading (state w') = false)
  ∧ (∀ text listing,
       (truthy error_text = true → ToString error_text = inr text) →
       join ", " items = inr listing →
       msg = (if truthy error_text then text +:+ " " else "")
             +:+ "Found subjects: " +:+ listing
       ∧ contains msg listing
       ∧ (∀ t, error_text = VStr t → contains msg t))
  ∧ (∀ subjects : list string,
       items = VStr <$> subjects →
       error_text = VUndefined ∨ (∃ t, error_text = VStr t) →
       contains msg (join_strings ", " subjects)
       ∧ (∀ t, error_text = VStr t → contains msg t))
  ∧ (∀ e,
       (truthy error_text = true ∧ ToString error_text = inl e)
       ∨ ((truthy error_text = true → ∃ text, ToString error_text = inr text)
          ∧ join ", " items = inl e) →
       msg = message_of e)
  ∧ (let conflict :=
       {| status := 409;
          json := Fulfilled (VObj [("error", VStr "mismatch");
                                   ("found_subjects",
                                    VArr [VStr "CS101"; VStr "CS102"])]);
          blob := b |} in
     let shown :=
       message (notification
                  (state (exec (handleUpload_settled (Fulfilled conflict)) w))) in
     shown = "mismatch Found subjects: CS101, CS102"
     ∧ contains shown "mismatch" ∧ contains shown "CS101, CS102").
Proof.
  intros Hcode Hfound response error_text w' msg.
  assert (Hok : ok response = false).
  { unfold ok, response. cbn [status].
    apply andb_false_iff. rewrite !N.leb_gt. lia. }
  pose proof (upload_body_found_subjects w response props items Hok eq_refl
                Hfound) as Hbody.
  fold error_text in Hbody.
  set (thrown := match (if truthy error_text then _ else _) with
                 | inl e => e | inr _ => _ end) in Hbody.
  assert (Hw' : w' = exec (setIsUploading false)
                       (exec (showNotification (message_of thrown) "error") w)).
  { unfold w', handleUpload_settled, try_finally, try_catch, exec.
    by rewrite Hbody. }
  assert (Hmsg : msg = message_of thrown) by (unfold msg; by rewrite Hw').
  assert (Hrendered : ∀ text listing,
            (truthy error_text = true → ToString error_text = inr text) →
            join ", " items = inr listing →
            msg = (if truthy error_text then text +:+ " " else "")
                  +:+ "Found subjects: " +:+ listing
            ∧ contains msg listing
            ∧ (∀ t, error_text = VStr t → contains msg t)).
  { intros text listing Htext Hjoin.
    assert (Heq : msg = (if truthy error_text then text +:+ " " else "")
                        +:+ "Found subjects: " +:+ listing).
    { rewrite Hmsg. unfold thrown. rewrite Hjoin.
      destruct (truthy error_text); [by rewrite (Htext eq_refl) | done]. }
    split; [exact Heq|]. rewrite Heq. split.
    { rewrite <- append_assoc. apply contains_suffix. }
    intros t Ht. rewrite Ht in Htext |- *. cbn [truthy] in *.
    destruct t as [|c t]; [apply contains_empty|].
    cbn [String.eqb negb] in *. specialize (Htext eq_refl).
    cbn [ToString] in Htext. injection Htext as <-.
    rewrite append_assoc. apply contains_prefix. }
  split; [rewrite Hw'; by run|].
  split; [exact Hrendered|]. split; [|split].
  - intros subjects Hitems Herr.
    assert (Htext : truthy error_text = true →
                    ToString error_text
                    = inr (match error_text with VStr t => t | _ => "" end)).
    { destruct Herr as [-> | [t ->]]; [done | by intros _]. }
    destruct (Hrendered _ (join_strings ", " subjects) Htext) as (_ & ? & ?);
      [rewrite Hitems; apply join_strings_only | done].
  - intros e [[Htruthy Hthrow] | [Htext Hjoin]]; rewrite Hmsg; unfold thrown.
    + by rewrite Htruthy, Hthrow.
    + rewrite Hjoin. destruct (truthy error_text); [|done].
      by destruct (Htext eq_refl) as [text ->].
  - cbv zeta. split; [reflexivity|]. split.
    + by exists "", " Found subjects: CS101, CS102".
    + by exists "mismatch Found subjects: ", "".
Qed.

Lemma C6_found_subjects_in_error_message_witness :
  let body := VObj [("found_subjects", VArr [VStr "MA201"; VNull; VStr "PH105"])] in
  let response :=
    {| status := 400; json := Fulfilled body;
       blob := Rejected (Failure "body already read") |} in
  let w' := exec (handleUpload_settled (engine := example_engine)
                    (Fulfilled response)) graded_world in
  message (notification (state w')) = "Found subjects: MA201, , PH105"
  ∧ downloadInfo (state w') = downloadInfo (state graded_world)
  ∧ isUploading (state w') = false.
Proof.
  intros body response w'.
  assert (Hcode : (400 < 200 ∨ 299 < 400)%N) by (right; reflexivity).
  destruct (C6_found_subjects_in_error_message (engine := example_engine)
              graded_world 400
              [("found_subjects", VArr [VStr "MA201"; VNull; VStr "PH105"])]
              [VStr "MA201"; VNull; VStr "PH105"]
              (Rejected (Failure "body already read")) Hcode eq_refl)
    as ((_ & _ & Hinfo & _ & _ & _ & _ & _ & _ & Hidle) & Hmsg & _).
  destruct (Hmsg "" "MA201, , PH105") as (Hshown & _);
    [discriminate | reflexivity |].
  split; [exact Hshown | split; [exact Hinfo | exact Hidle]].
Defined.

(** A server [error] that is an object with an own [toString] property
    has no text: the conversion throws before the list is joined, and
    the message shown is that of the [TypeError], without the list. *)
Example found_subjects_with_unconvertible_error :
  let body := VObj [("error", VObj [("toString", VBool true)]);
                    ("found_subjects", VArr [VStr "CS101"])] in
  let response :=
    {| status := 409; json := Fulfilled body;
       blob := Rejected (Failure "body already read") |} in
  let w' := exec (handleUpload_settled (engine := example_engine)
                    (Fulfilled response)) graded_world in
  notification (state w')
  = {| message := "Cannot convert object to primitive value"; type := "error" |}
  ∧ chartData (state w') = chartData (state graded_world)
  ∧ requests w' = requests graded_world.
Proof. vm_compute. repeat split. Qed.

(** *** The grade-ranges request *)

Lemma own_property_absent (k : string) (props : list (string * value)) :
  existsb (fun p => String.eqb p.1 k) props = false →
  own_property k props = VUndefined.
Proof.
  induction props as [|[k' v] props IH]; [done|]. cbn.
  destruct (String.eqb k' k); [done | exact IH].
Qed.

(** C7. When the grade-ranges request fails (the request is rejected,
    the body is not JSON, or the body has no [grade_ranges] field), its
    handlers end normally and do nothing but set the grade ranges to
    null: summary, details, download info and chart aggregate are as
    committed before, no notification is shown, no timer set and no
    request issued. *)
Theorem C7_failed_ranges_fetch_is_isolated {engine : Engine}
    (w : World) (r : Settled Response) :
  ranges_fetch_failed r →
  let w' := exec (gradeRanges_settled r) w in
  gradeRanges_settled r w = (inr tt, w')
  ∧ w' = exec (setGradeRanges VNull) w
  ∧ gradeRanges (state w') = VNull
  ∧ resultStats (state w') = resultStats (state w)
  ∧ resultDetails (state w') = resultDetails (state w)
  ∧ downloadInfo (state w') = downloadInfo (state w)
  ∧ chartData (state w') = chartData (state w)
  ∧ notification (state w') = notification (state w)
  ∧ isUploading (state w') = isUploading (state w)
  ∧ timers w' = timers w
  ∧ requests w' = requests w.
Proof.
  intros Hfail w'.
  assert (Hrun : gradeRanges_settled r w
                 = (inr tt, exec (setGradeRanges VNull) w)).
  { unfold gradeRanges_settled.
    destruct Hfail as [e | res e Hjson | res data Hjson Hfield]; run.
    - done.
    - by rewrite Hjson.
    - rewrite Hjson.
      destruct data as [| |b|n|t|items|props]; cbn [Get truthy]; try done.
      cbn [has_field] in Hfield.
      by rewrite (own_property_absent _ _ Hfield). }
  assert (Hw' : w' = exec (setGradeRanges VNull) w)
    by (unfold w', exec at 1; by rewrite Hrun).
  split; [by rewrite Hrun, Hw'|]. split; [exact Hw'|].
  rewrite Hw'. by run.
Qed.

Lemma C7_failed_ranges_fetch_is_isolated_witness :
  let r := Fulfilled {| status := 404;
                        json := Fulfilled (VObj [("error", VStr "File not found")]);
                        blob := Rejected (Failure "body already read") |} in
  let w' := exec (gradeRanges_settled (engine := example_engine) r) graded_world in
  gradeRanges (state w') = VNull
  ∧ resultStats (state w') = VObj [("grading_method", VStr "relative_grading")]
  ∧ downloadInfo (state w') = downloadInfo (state graded_world)
  ∧ chartData (state w') = chartData (state graded_world).
Proof.
  intros r w'.
  assert (Hfail : ranges_fetch_failed r)
    by (eapply no_grade_ranges; reflexivity).
  destruct (C7_failed_ranges_fetch_is_isolated (engine := example_engine)
              graded_world r Hfail)
    as (_ & _ & Hnull & Hstats & _ & Hinfo & Hchart & _).
  split; [exact Hnull|]. split; [exact Hstats|]. split; [exact Hinfo | exact Hchart].
Defined.

(** *** The chart aggregation *)

Lemma occurrences_cons (g : string) (r : StudentRecord) (rest : list StudentRecord) :
  occurrences g (r :: rest)
  = (if String.eqb (Grade r) g then 1 else 0) + occurrences g rest.
Proof. unfold occurrences. cbn. by destruct (String.eqb (Grade r) g). Qed.

(** The object of counts after the [reduce]: every key has gained the
    number of students with that grade. *)
Lemma reduce_counts_records {engine : Engine}
    (details : list StudentRecord) (acc : gmap string nat) :
  ∃ counts,
    reduce_counts (record_value <$> details) acc = inr counts
    ∧ ∀ g, default 0 (counts !! g) = default 0 (acc !! g) + occurrences g details.
Proof.
  revert acc. induction details as [|r rest IH]; intros acc.
  - exists acc. split; [done|]. intros g. unfold occurrences. cbn. lia.
  - cbn [fmap list_fmap reduce_counts record_value Get own_property
         String.eqb Ascii.eqb Bool.eqb ToString].
    destruct (IH (<[Grade r := default 0 (acc !! Grade r) + 1]> acc))
      as (counts & Hrun & Hcounts).
    exists counts. split; [exact Hrun|].
    intros g. rewrite Hcounts, occurrences_cons.
    destruct (String.eqb_spec (Grade r) g) as [->|Hne].
    + rewrite lookup_insert_eq. cbn. lia.
    + rewrite lookup_insert_ne by done. lia.
Qed.

(** The counters of the specification after all increments. *)
Lemma increment_all (details : list StudentRecord) (counters : list (string * nat)) :
  foldl (fun cs r => increment (Grade r) cs) counters details
  = (fun c => (c.1, c.2 + occurrences c.1 details)) <$> counters.
Proof.
  revert counters. induction details as [|r rest IH]; intros counters; cbn [foldl].
  - rewrite <- (list_fmap_id counters) at 1. apply list_fmap_ext.
    intros _ [g n] _. unfold occurrences. cbn. f_equal. lia.
  - rewrite IH. unfold increment. rewrite <- list_fmap_compose.
    apply list_fmap_ext. intros _ [g n] _.
    cbn [compose fst snd]. rewrite occurrences_cons, (String.eqb_sym g).
    destruct (String.eqb (Grade r) g); cbn [fst snd]; f_equal; lia.
Qed.

Lemma aggregate_occurrences (details : list StudentRecord) :
  aggregate details
  = (fun g => {| grade := g; Number_of_Students := occurrences g details |})
      <$> canonical.
Proof.
  unfold aggregate. rewrite increment_all. unfold zero_counters.
  rewrite <- !list_fmap_compose. by apply list_fmap_ext.
Qed.

Lemma count_grades_records {engine : Engine} (details : list StudentRecord) :
  ∃ counts,
    count_grades (VArr (record_value <$> details)) = inr counts
    ∧ formattedChartData counts = aggregate details.
Proof.
  destruct (reduce_counts_records details ∅) as (counts & Hrun & Hcounts).
  exists counts. split; [exact Hrun|].
  rewrite aggregate_occurrences. unfold formattedChartData.
  change gradeOrder with canonical.
  apply list_fmap_ext. intros _ g _. f_equal.
  rewrite Hcounts, lookup_empty. done.
Qed.

(** What a success response with countable details commits, in the
    order of the code: the download info, the summary, the details, the
    success notification, the chart data. Then the address of the
    grade-ranges request is put together: the request goes out, or the
    conversion of the file id throws and the error is shown instead. In
    both cases the busy flag is cleared last. *)
Lemma upload_counted {engine : Engine}
    (w : World) (response : Response)
    (result file_id filename summary details : value)
    (counts : gmap string nat) :
  ok response = true →
  json response = Fulfilled result →
  Get result "file_id" = inr file_id →
  Get result "filename" = inr filename →
  Get result "summary" = inr summary →
  Get result "details" = inr details →
  count_grades details = inr counts →
  handleUpload_settled (Fulfilled response) w
  = (setDownloadInfo (Some {| fileId := file_id; filename := filename |}) ;;
     setResultStats summary ;;
     setResultDetails details ;;
     showNotification "File processed successfully!" "success" ;;
     setChartData (formattedChartData counts) ;;
     match ToString file_id with
     | inr address =>
         fetch (GET ("http://localhost:5000/grade-ranges/" +:+ address))
     | inl e => showNotification (message_of e) "error"
     end ;;
     setIsUploading false) w.
Proof.
  intros Hok Hjson Hid Hname Hsum Hdet Hcounts.
  unfold handleUpload_settled, upload_body. step.
  rewrite Hjson, Hok. step. rewrite Hid, Hname, Hsum, Hdet, Hcounts.
  destruct (ToString file_id); vm_compute; reflexivity.
Qed.

Lemma upload_success {engine : Engine}
    (w : World) (response : Response)
    (result file_id filename summary details : value)
    (counts : gmap string nat) (address : string) :
  ok response = true →
  json response = Fulfilled result →
  Get result "file_id" = inr file_id →
  Get result "filename" = inr filename →
  Get result "summary" = inr summary →
  Get result "details" = inr details →
  count_grades details = inr counts →
  ToString file_id = inr address →
  handleUpload_settled (Fulfilled response) w
  = (setDownloadInfo (Some {| fileId := file_id; filename := filename |}) ;;
     setResultStats summary ;;
     setResultDetails details ;;
     showNotification "File processed successfully!" "success" ;;
     setChartData (formattedChartData counts) ;;
     fetch (GET ("http://localhost:5000/grade-ranges/" +:+ address)) ;;
     setIsUploading false) w.
Proof.
  intros Hok Hjson Hid Hname Hsum Hdet Hcounts Haddress.
  rewrite (upload_counted w response result file_id filename summary details
             counts Hok Hjson Hid Hname Hsum Hdet Hcounts).
  by rewrite Haddress.
Qed.

(** C1. The chart aggregation of the code (count every record under its
    grade, then read the canonical labels off in order) never fails on
    a sequence of student records and yields what the specified
    aggregation yields: one zero counter per canonical label O, A+, A,
    B+, B, C, U, the counter of each record's grade incremented, other
    labels dropped, the pairs emitted in canonical order. Each count is
    the number of records with that grade. It depends on the records
    only, and it is what a successful upload stores as chart data. On
    [{Grade:"O"},{Grade:"O"},{Grade:"B"}] it yields
    [{O,2},{A+,0},{A,0},{B+,0},{B,1},{C,0},{U,0}]. *)
Theorem C1_chart_aggregation {engine : Engine} (details : list StudentRecord) :
  (∃ counts,
     count_grades (VArr (record_value <$> details)) = inr counts
     ∧ formattedChartData counts = aggregate details)
  ∧ aggregate details
    = (fun g => {| grade := g; Number_of_Students := occurrences g details |})
        <$> ["O"; "A+"; "A"; "B+"; "B"; "C"; "U"]
  ∧ (∀ (w : World) (file_id filename summary : value) (b : Settled string),
       let result :=
         VObj [("file_id", file_id); ("filename", filename);
               ("summary", summary);
               ("details", VArr (record_value <$> details))] in
       let response := {| status := 200; json := Fulfilled result; blob := b |} in
       chartData (state (exec (handleUpload_settled (Fulfilled response)) w))
       = aggregate details)
  ∧ match count_grades (VArr [VObj [("Grade", VStr "O")];
                              VObj [("Grade", VStr "O")];
                              VObj [("Grade", VStr "B")]]) with
    | inr counts => Some (formattedChartData counts)
    | inl _ => None
    end
    = Some [ {| grade := "O"; Number_of_Students := 2 |};
             {| grade := "A+"; Number_of_Students := 0 |};
             {| grade := "A"; Number_of_Students := 0 |};
             {| grade := "B+"; Number_of_Students := 0 |};
             {| grade := "B"; Number_of_Students := 1 |};
             {| grade := "C"; Number_of_Students := 0 |};
             {| grade := "U"; Number_of_Students := 0 |} ].
Proof.
  split; [apply count_grades_records|].
  split; [apply aggregate_occurrences|].
  split; [|by vm_compute].
  intros w file_id filename summary b result response.
  destruct (count_grades_records details) as (counts & Hrun & Hchart).
  unfold exec.
  rewrite (upload_counted w response result file_id filename summary
             (VArr (record_value <$> details)) counts);
    [| reflexivity..| exact Hrun].
  rewrite <- Hchart. by destruct (ToString file_id).
Qed.

(** *** Notifications *)

Lemma run_callbacks_clear (ts : list Timer) (w : World) :
  run_callbacks ts w
  = (inr tt, match ts with
             | [] => w
             | _ => exec (setNotification no_notification) w
             end).
Proof.
  revert w. induction ts as [|x r IH]; intros w; [done|].
  cbn [run_callbacks]. destruct x as [d []]. cbn [callback]. run.
  match goal with |- run_callbacks r ?w1 = _ => rewrite (IH w1) end.
  by destruct r.
Qed.

Lemma length_insert_by_due (x : Timer) (l : list Timer) :
  length (insert_by_due x l) = S (length l).
Proof.
  induction l as [|y l IH]; [done|]. cbn.
  destruct (due x <? due y)%N; cbn; by rewrite ?IH.
Qed.

Lemma length_firing_order (ts : list Timer) :
  length (firing_order ts) = length ts.
Proof.
  unfold firing_order.
  enough (∀ acc, length (foldl (fun acc x => insert_by_due x acc) acc ts)
                 = length acc + length ts) as Hgen by apply (Hgen []).
  induction ts as [|x ts IH]; intros acc; cbn; [lia|].
  rewrite IH, length_insert_by_due. lia.
Qed.

(** What the passing of time does: the timers due by then are gone,
    and if there was one, no notification is displayed any more. *)
Lemma advance_spec (t : N) (w : World) :
  let now := N.max (clock w) t in
  clock (advance t w) = now
  ∧ timers (advance t w) = List.filter (fun x => negb (is_due now x)) (timers w)
  ∧ requests (advance t w) = requests w
  ∧ state (advance t w)
    = match List.filter (is_due now) (timers w) with
      | [] => state w
      | _ => state (exec (setNotification no_notification) w)
      end.
Proof.
  intros now. unfold advance. fold now.
  cbv beta iota zeta delta [exec mbind M_bind].
  rewrite run_callbacks_clear.
  pose proof (length_firing_order (List.filter (is_due now) (timers w))) as Hlen.
  destruct (firing_order (List.filter (is_due now) (timers w))) as [|x l];
    destruct (List.filter (is_due now) (timers w)) as [|y l']; try done.
Qed.

Lemma elem_of_snoc (x : Timer) (ts : list Timer) : x ∈ (ts ++ [x])%list.
Proof. apply elem_of_app. right. apply list_elem_of_singleton. done. Qed.

Lemma elem_of_snoc_other (x y : Timer) (ts : list Timer) :
  x ∈ ts → x ∈ (ts ++ [y])%list.
Proof. intros Hin. apply elem_of_app. by left. Qed.

Lemma filter_due_elem (now : N) (x : Timer) (ts : list Timer) :
  x ∈ ts → is_due now x = true → List.filter (is_due now) ts ≠ [].
Proof.
  intros Hin Hdue Hnil.
  apply list_elem_of_In in Hin.
  assert (Hx : In x (List.filter (is_due now) ts))
    by (apply filter_In; by split).
  rewrite Hnil in Hx. done.
Qed.

Lemma filter_pending_elem (now : N) (x : Timer) (ts : list Timer) :
  x ∈ ts → is_due now x = false →
  x ∈ List.filter (fun y => negb (is_due now y)) ts.
Proof.
  intros Hin Hdue. apply list_elem_of_In, filter_In.
  split; [by apply list_elem_of_In | by rewrite Hdue].
Qed.

(** C3, as the code has it. Two notifications, the second shown while
    the timer of the first is pending: the second message is displayed
    at once and both clearing timers are pending; when the timer of the
    first fires, 4000 ms after the first call, it clears whatever is
    displayed, so the newer message is gone. If the second call came
    later than the first, the newer notification's own timer is still
    pending at that moment; if both calls came at the same instant, the
    two timers fire together and the newer one is not pending any
    more. *)
Theorem C3_first_timer_clears_newer_message
    (w : World) (t1 : N) (m1 k1 : string) (t2 : N) (m2 k2 : string) :
  (clock w ≤ t1)%N → (t1 ≤ t2)%N → (t2 < t1 + 4000)%N →
  let w2 := notify_twice w t1 m1 k1 t2 m2 k2 in
  notification (state w2) = {| message := m2; type := k2 |}
  ∧ clearing_timer t1 ∈ timers w2
  ∧ clearing_timer t2 ∈ timers w2
  ∧ notification (state (advance (t1 + 4000) w2)) = no_notification
  ∧ ((t1 < t2)%N → clearing_timer t2 ∈ timers (advance (t1 + 4000) w2))
  ∧ (t1 = t2 → clearing_timer t2 ∉ timers (advance (t1 + 4000) w2)).
Proof.
  intros Hnow H12 Hpending w2.
  set (wa := advance t1 w).
  set (w1 := exec (showNotification m1 k1) wa).
  set (wb := advance t2 w1).
  destruct (advance_spec t1 w) as (Hca & _).
  destruct (advance_spec t2 w1) as (Hcb & Htb & _).
  fold wa in Hca. fold wb in Hcb, Htb.
  assert (Hc1 : clock w1 = t1) by (unfold w1; run; lia).
  assert (Ht1 : timers w1 = (timers wa ++ [clearing_timer t1])%list).
  { unfold w1, clearing_timer. run. by rewrite Hca, N.max_r by lia. }
  rewrite Hc1, N.max_r in Hcb, Htb by lia.
  assert (Hin1 : clearing_timer t1 ∈ timers wb).
  { rewrite Htb. apply filter_pending_elem.
    - rewrite Ht1. apply elem_of_snoc.
    - unfold is_due, clearing_timer. cbn [due]. apply N.leb_gt. lia. }
  assert (Ht2 : timers w2 = (timers wb ++ [clearing_timer t2])%list).
  { unfold w2, notify_twice, clearing_timer. fold wa. fold w1. fold wb.
    run. by rewrite Hcb. }
  assert (Hc2 : clock w2 = t2).
  { unfold w2, notify_twice. fold wa. fold w1. fold wb. by run. }
  split; [by unfold w2, notify_twice; run|].
  split; [rewrite Ht2; by apply elem_of_snoc_other|].
  split; [rewrite Ht2; apply elem_of_snoc|].
  destruct (advance_spec (t1 + 4000) w2) as (_ & Htc & _ & Hsc).
  rewrite Hc2, N.max_r in Htc, Hsc by lia. split.
  - rewrite Hsc.
    pose proof (filter_due_elem (t1 + 4000) (clearing_timer t1) (timers w2))
      as Hdue.
    destruct (List.filter (is_due (t1 + 4000)) (timers w2)).
    + exfalso.
      apply Hdue; [rewrite Ht2; by apply elem_of_snoc_other | | done].
      unfold is_due, clearing_timer. cbn [due]. apply N.leb_le. lia.
    + by run.
  - split.
    + intros Hlater. rewrite Htc. apply filter_pending_elem.
      * rewrite Ht2. apply elem_of_snoc.
      * unfold is_due, clearing_timer. cbn [due]. apply N.leb_gt. lia.
    + intros <-. rewrite Htc. intros Hin.
      apply list_elem_of_In, filter_In in Hin as [_ Hleft].
      unfold is_due, clearing_timer in Hleft. cbn [due] in Hleft.
      by rewrite N.leb_refl in Hleft.
Qed.

Lemma C3_first_timer_clears_newer_message_witness :
  let w2 := notify_twice initialWorld 0 "Please select a file first" "error"
              1500 "File processed successfully!" "success" in
  notification (state w2)
  = {| message := "File processed successfully!"; type := "success" |}
  ∧ notification (state (advance 4000 w2)) = no_notification
  ∧ clearing_timer 1500 ∈ timers (advance 4000 w2).
Proof.
  intros w2.
  assert (H0 : (clock initialWorld ≤ 0)%N) by reflexivity.
  assert (H1 : (0 ≤ 1500)%N) by lia.
  assert (H2 : (1500 < 0 + 4000)%N) by lia.
  assert (H3 : (0 < 1500)%N) by lia.
  destruct (C3_first_timer_clears_newer_message initialWorld
              0 "Please select a file first" "error"
              1500 "File processed successfully!" "success" H0 H1 H2)
    as (Hshown & _ & _ & Hcleared & Hpending & _).
  split; [exact Hshown | split; [exact Hcleared | exact (Hpending H3)]].
Defined.

(** C3, as the specification states it, fails: with the first
    notification at time 0 and the second at 1500, the second message
    is no longer displayed once the first timer has fired at 4000. *)
Lemma C3_second_message_cleared_by_first_timer :
  ¬ second_survives_first_timer initialWorld
      0 "Please select a file first" "error"
      1500 "File processed successfully!" "success".
Proof. unfold second_survives_first_timer. vm_compute. discriminate. Qed.

(* ================================================================= *)
(** ** Further properties *)
(* ================================================================= *)

Import Notions.

(** *** Reset and drop *)

(** X1. [resetState] is idempotent. It puts every cell it owns back to
    its initial value and empties the file input, and it leaves the
    displayed notification, the drag flag, the pending timers, the
    requests in flight and the clock alone. *)
Theorem X1_resetState_idempotent_and_frame (w : World) :
  let w' := exec resetState w in
  exec resetState w' = w'
  ∧ state w' =
      {| selectedFile := None; isUploading := false;
         notification := notification (state w);
         downloadInfo := None; resultStats := VNull;
         resultDetails := VArr []; chartData := []; gradeRanges := VNull;
         expectedTotal := ""; subjectCode := "";
         dragActive := dragActive (state w) |}
  ∧ inputRef w' = (match inputRef w with Some _ => Some "" | None => None end)
  ∧ timers w' = timers w
  ∧ requests w' = requests w
  ∧ clock w' = clock w
  ∧ saved w' = saved w.
Proof.
  destruct w as [s [i|] c ts rs sv]; vm_compute; repeat split.
Qed.

(** X2. After a drop the drag flag is off, whatever was dropped (no
    file, a refused file, an accepted file); everything else is as
    [handleFileSelect] leaves it. *)
Theorem X2_handleDrop_clears_drag_flag (files : option (list File)) (w : World) :
  let dropped := exec (handleDrop files) w in
  let selected := exec (handleFileSelect files) w in
  dragActive (state dropped) = false
  ∧ dragActive (state selected) = dragActive (state w)
  ∧ selectedFile (state dropped) = selectedFile (state selected)
  ∧ notification (state dropped) = notification (state selected)
  ∧ isUploading (state dropped) = isUploading (state selected)
  ∧ expectedTotal (state dropped) = expectedTotal (state selected)
  ∧ subjectCode (state dropped) = subjectCode (state selected)
  ∧ same_result selected dropped
  ∧ gradeRanges (state dropped) = gradeRanges (state selected)
  ∧ inputRef dropped = inputRef selected
  ∧ timers dropped = timers selected
  ∧ requests dropped = requests selected.
Proof.
  unfold handleDrop, handleFileSelect, same_result.
  destruct files as [[|file others]|]; [repeat split | | repeat split].
  destruct (negb (endsWith (toLowerCase (name file)) ".xlsx")
            && negb (endsWith (toLowerCase (name file)) ".xls"));
    vm_compute; repeat split.
Qed.

(** *** What a settled upload leaves *)


(** How the timers and the clock pass through the writes. *)
Lemma timers_with_state (f : State → State) (w : World) :
  timers (exec (with_state f) w) = timers w.
Proof. reflexivity. Qed.

Lemma clock_with_state (f : State → State) (w : World) :
  clock (exec (with_state f) w) = clock w.
Proof. reflexivity. Qed.

Lemma timers_showNotification (m k : string) (w : World) :
  timers (exec (showNotification m k) w)
  = (timers w ++ [clearing_timer (clock w)])%list.
Proof. reflexivity. Qed.

Lemma clock_showNotification (m k : string) (w : World) :
  clock (exec (showNotification m k) w) = clock w.
Proof. reflexivity. Qed.

(** Reads the timers off a world written by state cells and
    notifications. *)
Ltac timers_through :=
  unfold setSelectedFile, setIsUploading, setNotification, setDownloadInfo,
    setResultStats, setResultDetails, setChartData, setGradeRanges,
    setExpectedTotal, setSubjectCode, setDragActive;
  rewrite ?timers_with_state, ?timers_showNotification, ?clock_with_state,
    ?clock_showNotification, ?timers_with_state, ?timers_showNotification,
    ?clock_with_state, ?clock_showNotification, <- ?app_assoc.

(** Settles a conjunction of facts about a written world, one cell at
    a time. *)
Ltac read_world :=
  split_and!;
  lazymatch goal with
  | |- timers _ = _ => timers_through; reflexivity
  | |- _ => reflexivity
  end.

(** When the [try] body throws, the handler shows the thrown message
    and clears the busy flag, on top of what the body wrote. *)
Lemma upload_thrown {engine : Engine}
    (r : Settled Response) (w thrown_at : World) (e : error) :
  upload_body r w = (inl e, thrown_at) →
  handleUpload_settled r w
  = (inr tt, exec (setIsUploading false)
               (exec (showNotification (message_of e) "error") thrown_at)).
Proof.
  intros Hbody. unfold handleUpload_settled, try_finally, try_catch.
  rewrite Hbody. reflexivity.
Qed.

Lemma upload_thrown_world {engine : Engine}
    (r : Settled Response) (w thrown_at : World) (e : error) :
  upload_body r w = (inl e, thrown_at) →
  exec (handleUpload_settled r) w
  = exec (setIsUploading false)
      (exec (showNotification (message_of e) "error") thrown_at).
Proof. intros Hbody. unfold exec at 1. by rewrite (upload_thrown _ _ _ _ Hbody). Qed.

(** The [try] body on a success response whose students cannot be
    counted: it throws after its first three writes and the success
    notification. *)
Lemma upload_body_uncounted {engine : Engine}
    (w : World) (response : Response) (props : list (string * value))
    (e : error) :
  ok response = true →
  json response = Fulfilled (VObj props) →
  count_grades (own_property "details" props) = inl e →
  upload_body (Fulfilled response) w
  = (inl e,
     exec (showNotification "File processed successfully!" "success")
       (exec (setResultDetails (own_property "details" props))
          (exec (setResultStats (own_property "summary" props))
             (exec (setDownloadInfo
                      (Some {| fileId := own_property "file_id" props;
                               filename := own_property "filename" props |}))
                   w)))).
Proof.
  intros Hok Hjson Hcount. unfold upload_body. step.
  rewrite Hjson, Hok. step. cbn [Get]. rewrite Hcount.
  vm_compute. reflexivity.
Qed.

(** The [try] body on a success response whose students are counted
    but whose file id has no text: it throws after all its writes,
    before the request for the grade ranges. *)
Lemma upload_body_unaddressed {engine : Engine}
    (w : World) (response : Response) (props : list (string * value))
    (counts : gmap string nat) (e : error) :
  ok response = true →
  json response = Fulfilled (VObj props) →
  count_grades (own_property "details" props) = inr counts →
  ToString (own_property "file_id" props) = inl e →
  upload_body (Fulfilled response) w
  = (inl e,
     exec (setChartData (formattedChartData counts))
       (exec (showNotification "File processed successfully!" "success")
          (exec (setResultDetails (own_property "details" props))
             (exec (setResultStats (own_property "summary" props))
                (exec (setDownloadInfo
                         (Some {| fileId := own_property "file_id" props;
                                  filename := own_property "filename" props |}))
                      w))))).
Proof.
  intros Hok Hjson Hcount Hthrow. unfold upload_body. step.
  rewrite Hjson, Hok. step. cbn [Get]. rewrite Hcount, Hthrow.
  vm_compute. reflexivity.
Qed.

Lemma upload_counted_world {engine : Engine}
    (w : World) (response : Response) (props : list (string * value))
    (counts : gmap string nat) :
  ok response = true →
  json response = Fulfilled (VObj props) →
  count_grades (own_property "details" props) = inr counts →
  exec (handleUpload_settled (Fulfilled response)) w
  = exec (setDownloadInfo
            (Some {| fileId := own_property "file_id" props;
                     filename := own_property "filename" props |}) ;;
          setResultStats (own_property "summary" props) ;;
          setResultDetails (own_property "details" props) ;;
          showNotification "File processed successfully!" "success" ;;
          setChartData (formattedChartData counts) ;;
          match ToString (own_property "file_id" props) with
          | inr address =>
              fetch (GET ("http://localhost:5000/grade-ranges/" +:+ address))
          | inl e => showNotification (message_of e) "error"
          end ;;
          setIsUploading false) w.
Proof.
  intros Hok Hjson Hcount. unfold exec.
  by rewrite (upload_counted w response (VObj props)
                (own_property "file_id" props) (own_property "filename" props)
                (own_property "summary" props) (own_property "details" props)
                counts Hok Hjson eq_refl eq_refl eq_refl eq_refl Hcount).
Qed.

Lemma upload_success_world {engine : Engine}
    (w : World) (response : Response) (props : list (string * value))
    (counts : gmap string nat) (address : string) :
  ok response = true →
  json response = Fulfilled (VObj props) →
  count_grades (own_property "details" props) = inr counts →
  ToString (own_property "file_id" props) = inr address →
  exec (handleUpload_settled (Fulfilled response)) w
  = exec (setDownloadInfo
            (Some {| fileId := own_property "file_id" props;
                     filename := own_property "filename" props |}) ;;
          setResultStats (own_property "summary" props) ;;
          setResultDetails (own_property "details" props) ;;
          showNotification "File processed successfully!" "success" ;;
          setChartData (formattedChartData counts) ;;
          fetch (GET ("http://localhost:5000/grade-ranges/" +:+ address)) ;;
          setIsUploading false) w.
Proof.
  intros Hok Hjson Hcount Haddress.
  rewrite (upload_counted_world w response props counts Hok Hjson Hcount).
  by rewrite Haddress.
Qed.

(** X3. A success response whose body is an object with countable
    details and a file id that has a text commits the whole result at
    once: download info from [file_id] and [filename], the summary and
    the details as sent, the chart data, a success notification with
    its timer; then exactly one request goes out, to the grade-ranges
    address of that text (of "undefined" when the body has no file id);
    the busy flag is cleared. The staged file, both parameters and the
    grade ranges of an earlier upload stay as they are. *)
Theorem X3_upload_success_commits {engine : Engine}
    (w : World) (response : Response) (props : list (string * value))
    (counts : gmap string nat) (address : string) :
  ok response = true →
  json response = Fulfilled (VObj props) →
  count_grades (own_property "details" props) = inr counts →
  ToString (own_property "file_id" props) = inr address →
  let w' := exec (handleUpload_settled (Fulfilled response)) w in
  downloadInfo (state w')
    = Some {| fileId := own_property "file_id" props;
              filename := own_property "filename" props |}
  ∧ resultStats (state w') = own_property "summary" props
  ∧ resultDetails (state w') = own_property "details" props
  ∧ chartData (state w') = formattedChartData counts
  ∧ notification (state w')
    = {| message := "File processed successfully!"; type := "success" |}
  ∧ timers w' = (timers w ++ [clearing_timer (clock w)])%list
  ∧ requests w'
    = (requests w
       ++ [GET ("http://localhost:5000/grade-ranges/" +:+ address)])%list
  ∧ isUploading (state w') = false
  ∧ gradeRanges (state w') = gradeRanges (state w)
  ∧ same_inputs w w'.
Proof.
  intros Hok Hjson Hcount Haddress w'. unfold w'.
  rewrite (upload_success_world w response props counts address
             Hok Hjson Hcount Haddress).
  unfold same_inputs. repeat split.
Qed.

Lemma X3_upload_success_commits_witness :
  let w := exec handleUpload
             (staged_world {| name := "marks.xlsx"; size := 2048 |} "2" "CS101") in
  let w' := exec (handleUpload_settled (engine := example_engine)
                    (Fulfilled sample_response)) w in
  downloadInfo (state w')
  = Some {| fileId := VStr "f1"; filename := VStr "graded_marks.xlsx" |}
  ∧ requests w'
    = [upload_request {| name := "marks.xlsx"; size := 2048 |} "2" "CS101";
       GET "http://localhost:5000/grade-ranges/f1"]
  ∧ isUploading (state w') = false.
Proof.
  intros w w'.
  destruct (count_grades (engine := example_engine)
              (own_property "details"
                 [("file_id", VStr "f1");
                  ("filename", VStr "graded_marks.xlsx");
                  ("summary", VObj [("grading_method", VStr "relative_grading")]);
                  ("details",
                   VArr [record_value {| Name := "Asha"; Marks := None;
                                         Grade := "O"; Grade_Points := None |};
                         record_value {| Name := "Ravi"; Marks := None;
                                         Grade := "B"; Grade_Points := None |}])]))
    as [e|counts] eqn:Hcount; [vm_compute in Hcount; discriminate|].
  destruct (X3_upload_success_commits (engine := example_engine)
              w sample_response _ counts "f1" eq_refl eq_refl Hcount eq_refl)
    as (Hinfo & _ & _ & _ & _ & _ & Hreq & Hidle & _).
  split; [exact Hinfo | split; [exact Hreq | exact Hidle]].
Defined.

(** X4. A success response whose details cannot be counted (the field
    is missing or no array, a student is [null], or a grade is an
    object that has no text) is committed in part: download info, summary and details are stored as sent, but
    the chart data keeps its old value and no grade-ranges request goes
    out; the success notification is replaced at once by an error
    notification with the thrown message, so two clearing timers are
    set; the busy flag is cleared. *)
Theorem X4_uncountable_details_partial_commit {engine : Engine}
    (w : World) (response : Response) (props : list (string * value))
    (e : error) :
  ok response = true →
  json response = Fulfilled (VObj props) →
  count_grades (own_property "details" props) = inl e →
  let w' := exec (handleUpload_settled (Fulfilled response)) w in
  downloadInfo (state w')
    = Some {| fileId := own_property "file_id" props;
              filename := own_property "filename" props |}
  ∧ resultStats (state w') = own_property "summary" props
  ∧ resultDetails (state w') = own_property "details" props
  ∧ chartData (state w') = chartData (state w)
  ∧ notification (state w') = {| message := message_of e; type := "error" |}
  ∧ timers w' = (timers w ++ [clearing_timer (clock w);
                              clearing_timer (clock w)])%list
  ∧ requests w' = requests w
  ∧ isUploading (state w') = false
  ∧ gradeRanges (state w') = gradeRanges (state w)
  ∧ same_inputs w w'.
Proof.
  intros Hok Hjson Hcount w'.
  unfold w'.
  rewrite (upload_thrown_world _ _ _ _
             (upload_body_uncounted w response props e Hok Hjson Hcount)).
  unfold same_inputs. read_world.
Qed.

Lemma X4_uncountable_details_partial_commit_witness :
  let response :=
    {| status := 200;
       json := Fulfilled (VObj [("file_id", VStr "f7");
                                ("filename", VStr "graded.xlsx")]);
       blob := Rejected (Failure "body already read") |} in
  let w' := exec (handleUpload_settled (engine := example_engine)
                    (Fulfilled response)) initialWorld in
  downloadInfo (state w')
    = Some {| fileId := VStr "f7"; filename := VStr "graded.xlsx" |}
  ∧ resultDetails (state w') = VUndefined
  ∧ chartData (state w') = []
  ∧ notification (state w')
    = {| message := "Cannot read properties of undefined (reading 'reduce')";
         type := "error" |}
  ∧ requests w' = [].
Proof.
  intros response w'.
  destruct (X4_uncountable_details_partial_commit (engine := example_engine)
              initialWorld response
              [("file_id", VStr "f7"); ("filename", VStr "graded.xlsx")]
              (TypeError "Cannot read properties of undefined (reading 'reduce')")
              eq_refl eq_refl eq_refl)
    as (Hinfo & _ & Hdet & Hchart & Hnote & _ & Hreq & _).
  split; [exact Hinfo|]. split; [exact Hdet|]. split; [exact Hchart|].
  split; [exact Hnote | exact Hreq].
Defined.

(** Counting stops at the first student whose grade has no text: the
    key conversion throws there, before a later [null] student is
    looked at. *)
Example count_grades_stops_at_first_throw :
  count_grades (engine := example_engine)
    (VArr [VObj [("Grade", VObj [("toString", VBool true)])]; VNull])
  = inl (TypeError "Cannot convert object to primitive value").
Proof. reflexivity. Qed.

(** X24. A success response with countable details whose file id has
    no text (an object with an own [toString] property) is committed in
    full, chart data included; but putting the grade-ranges address
    together throws, so no request goes out and the success
    notification is replaced at once by an error notification with the
    thrown message (two clearing timers are set); the busy flag is
    cleared. *)
Theorem X24_unconvertible_file_id {engine : Engine}
    (w : World) (response : Response) (props : list (string * value))
    (counts : gmap string nat) (e : error) :
  ok response = true →
  json response = Fulfilled (VObj props) →
  count_grades (own_property "details" props) = inr counts →
  ToString (own_property "file_id" props) = inl e →
  let w' := exec (handleUpload_settled (Fulfilled response)) w in
  downloadInfo (state w')
    = Some {| fileId := own_property "file_id" props;
              filename := own_property "filename" props |}
  ∧ resultStats (state w') = own_property "summary" props
  ∧ resultDetails (state w') = own_property "details" props
  ∧ chartData (state w') = formattedChartData counts
  ∧ notification (state w') = {| message := message_of e; type := "error" |}
  ∧ timers w' = (timers w ++ [clearing_timer (clock w);
                              clearing_timer (clock w)])%list
  ∧ requests w' = requests w
  ∧ isUploading (state w') = false
  ∧ gradeRanges (state w') = gradeRanges (state w)
  ∧ same_inputs w w'.
Proof.
  intros Hok Hjson Hcount Hthrow w'. unfold w'.
  rewrite (upload_thrown_world _ _ _ _
             (upload_body_unaddressed w response props counts e
                Hok Hjson Hcount Hthrow)).
  unfold same_inputs. read_world.
Qed.

Lemma X24_unconvertible_file_id_witness :
  let response :=
    {| status := 200;
       json := Fulfilled (VObj [("file_id", VObj [("toString", VNull)]);
                                ("filename", VStr "graded.xlsx");
                                ("details", VArr [])]);
       blob := Rejected (Failure "body already read") |} in
  let w' := exec (handleUpload_settled (engine := example_engine)
                    (Fulfilled response)) initialWorld in
  chartData (state w')
  = [ {| grade := "O"; Number_of_Students := 0 |};
      {| grade := "A+"; Number_of_Students := 0 |};
      {| grade := "A"; Number_of_Students := 0 |};
      {| grade := "B+"; Number_of_Students := 0 |};
      {| grade := "B"; Number_of_Students := 0 |};
      {| grade := "C"; Number_of_Students := 0 |};
      {| grade := "U"; Number_of_Students := 0 |} ]
  ∧ notification (state w')
    = {| message := "Cannot convert object to primitive value";
         type := "error" |}
  ∧ requests w' = [].
Proof.
  intros response w'.
  destruct (X24_unconvertible_file_id (engine := example_engine)
              initialWorld response
              [("file_id", VObj [("toString", VNull)]);
               ("filename", VStr "graded.xlsx"); ("details", VArr [])]
              ∅ (TypeError "Cannot convert object to primitive value")
              eq_refl eq_refl eq_refl eq_refl)
    as (_ & _ & _ & Hchart & Hnote & _ & Hreq & _).
  split; [exact Hchart | split; [exact Hnote | exact Hreq]].
Defined.

(** X5. A non-success response whose body is an object without a
    truthy [found_subjects] gives an error notification and writes
    nothing else but the cleared busy flag. The message is the server's
    [error] converted to text when that is truthy (a string as it is),
    and "Failed to upload file" otherwise; when the [error] is truthy
    but has no text, the message is that of the thrown conversion
    error. *)
Theorem X5_upload_failure_message {engine : Engine}
    (w : World) (response : Response) (props : list (string * value)) :
  ok response = false →
  json response = Fulfilled (VObj props) →
  truthy (own_property "found_subjects" props) = false →
  let err := own_property "error" props in
  let shown (m : string) :=
    exec (setIsUploading false) (exec (showNotification m "error") w) in
  let w' := exec (handleUpload_settled (Fulfilled response)) w in
  (truthy err = false → w' = shown "Failed to upload file")
  ∧ (∀ text, truthy err = true → ToString err = inr text → w' = shown text)
  ∧ (∀ text, err = VStr text → text ≠ "" → w' = shown text)
  ∧ (∀ e, truthy err = true → ToString err = inl e → w' = shown (message_of e)).
Proof.
  intros Hok Hjson Hfound err shown w'.
  assert (Hw' : w' = shown (match ToString (if truthy err then err
                                            else VStr "Failed to upload file")
                            with
                            | inr text => text
                            | inl e => message_of e
                            end)).
  { unfold w', shown.
    destruct (ToString (if truthy err then err
                        else VStr "Failed to upload file")) as [e|text] eqn:Htext.
    - apply upload_thrown_world with (e := e).
      unfold upload_body. step. rewrite Hjson, Hok. step.
      cbn [truthy Get]. rewrite Hfound. fold err. step. by rewrite Htext.
    - apply upload_thrown_world with (e := Error text).
      unfold upload_body. step. rewrite Hjson, Hok. step.
      cbn [truthy Get]. rewrite Hfound. fold err. step. by rewrite Htext. }
  rewrite Hw'. split_and!.
  - by intros ->.
  - by intros text -> ->.
  - intros text -> Hne. cbn [truthy].
    by destruct text.
  - by intros e -> ->.
Qed.

Lemma X5_upload_failure_message_witness :
  let response :=
    {| status := 500; json := Fulfilled (VObj [("error", VStr "Sheet is empty")]);
       blob := Rejected (Failure "body already read") |} in
  let w' := exec (handleUpload_settled (engine := example_engine)
                    (Fulfilled response)) graded_world in
  notification (state w') = {| message := "Sheet is empty"; type := "error" |}
  ∧ downloadInfo (state w') = downloadInfo (state graded_world).
Proof.
  intros response w'.
  destruct (X5_upload_failure_message (engine := example_engine)
              graded_world response [("error", VStr "Sheet is empty")]
              eq_refl eq_refl eq_refl) as (_ & _ & Hshown & _).
  unfold w'. rewrite (Hshown "Sheet is empty" eq_refl); [|discriminate].
  split; reflexivity.
Defined.

(** X6. When the upload request is rejected, or its body is not JSON
    (whatever the status), the message of that failure is shown as an
    error; when the body is JSON [null] the engine's [TypeError] on
    reading [file_id] (success status) or [error] (other status) is
    shown. In each case nothing else is written but the cleared busy
    flag. *)
Theorem X6_upload_failure_passthrough {engine : Engine}
    (w : World) (e : error) (code : N) (b : Settled string) :
  let shown (e : error) :=
    exec (setIsUploading false)
      (exec (showNotification (message_of e) "error") w) in
  let garbled := {| status := code; json := Rejected e; blob := b |} in
  let null := {| status := code; json := Fulfilled VNull; blob := b |} in
  exec (handleUpload_settled (Rejected e)) w = shown e
  ∧ exec (handleUpload_settled (Fulfilled garbled)) w = shown e
  ∧ exec (handleUpload_settled (Fulfilled null)) w
    = shown (TypeError (cannot_read VNull
                          (if ok null then "file_id" else "error"))).
Proof.
  intros shown garbled null. split; [|split].
  - by apply upload_thrown_world.
  - by apply upload_thrown_world.
  - apply upload_thrown_world. unfold upload_body. step.
    cbn [json null]. by destruct (ok null).
Qed.

(** Splits on the next test a handler makes. *)
Ltac next_test :=
  step;
  match goal with
  | |- context [match ?x with Fulfilled _ => _ | Rejected _ => _ end] =>
      destruct x
  | |- context [match ?x with inl _ => _ | inr _ => _ end] => destruct x
  | |- context [if ?b then _ else _] => destruct b eqn:?
  end.

(** The cells a settled upload never writes, the flag it always
    clears, and the two ways it can end. *)
Lemma upload_settled_frame {engine : Engine} (r : Settled Response) (w : World) :
  let w' := exec (handleUpload_settled r) w in
  same_inputs w w'
  ∧ gradeRanges (state w') = gradeRanges (state w)
  ∧ clock w' = clock w
  ∧ saved w' = saved w
  ∧ isUploading (state w') = false
  ∧ ((type (notification (state w')) = "error" ∧ requests w' = requests w)
     ∨ (type (notification (state w')) = "success"
        ∧ ∃ url, requests w' = (requests w ++ [GET url])%list)).
Proof.
  unfold handleUpload_settled, upload_body, same_inputs, exec.
  unfold try_finally, try_catch.
  repeat next_test;
    (split_and!; [reflexivity..|]);
    first [ left; split_and!; reflexivity
          | right; split; [reflexivity | eexists; reflexivity] ].
Qed.

(** X7. However the upload request settles and whatever state it
    meets, the handler never writes the staged file, the parameters,
    the drag flag, the file input or the grade ranges, it always ends
    with the busy flag cleared, and it ends in one of two ways: with an
    error notification and no request issued, or with a success
    notification and exactly one further request. *)
Theorem X7_upload_settled_frame {engine : Engine}
    (r : Settled Response) (w : World) :
  let w' := exec (handleUpload_settled r) w in
  same_inputs w w'
  ∧ gradeRanges (state w') = gradeRanges (state w)
  ∧ clock w' = clock w
  ∧ saved w' = saved w
  ∧ isUploading (state w') = false
  ∧ ((type (notification (state w')) = "error" ∧ requests w' = requests w)
     ∨ (type (notification (state w')) = "success"
        ∧ ∃ url, requests w' = (requests w ++ [GET url])%list)).
Proof. apply upload_settled_frame. Qed.

(** *** The grade ranges *)

(** X8. However the grade-ranges request settles, its handlers end
    normally and write nothing but the grade ranges, and what they
    store is either null or a truthy value: the cell never holds
    [undefined], [false], zero or the empty text. *)
Theorem X8_gradeRanges_null_or_truthy {engine : Engine}
    (r : Settled Response) (w : World) :
  ∃ v, gradeRanges_settled r w = (inr tt, exec (setGradeRanges v) w)
       ∧ (v = VNull ∨ truthy v = true).
Proof.
  unfold gradeRanges_settled, try_catch.
  repeat next_test; try (exists VNull; split; [reflexivity | by left]).
  match goal with
  | H : truthy ?v = true |- _ => exists v; split; [reflexivity | by right]
  end.
Qed.

Lemma gradeRanges_adopted {engine : Engine}
    (w : World) (res : Response) (data ranges : value) :
  json res = Fulfilled data →
  Get data "grade_ranges" = inr ranges →
  exec (gradeRanges_settled (Fulfilled res)) w
  = exec (setGradeRanges (if truthy ranges then ranges else VNull)) w.
Proof.
  intros Hjson Hget. unfold gradeRanges_settled, try_catch, exec. step.
  rewrite Hjson. step. rewrite Hget. by destruct (truthy ranges).
Qed.

(** X9. A grade-ranges response whose body has a truthy [grade_ranges]
    is adopted as it is, whatever the HTTP status of the response (the
    handlers do not look at it); a falsy [grade_ranges] gives null. *)
Theorem X9_gradeRanges_adopted_whatever_status {engine : Engine}
    (w : World) (res : Response) (data ranges : value) :
  json res = Fulfilled data →
  Get data "grade_ranges" = inr ranges →
  exec (gradeRanges_settled (Fulfilled res)) w
  = exec (setGradeRanges (if truthy ranges then ranges else VNull)) w.
Proof. apply gradeRanges_adopted. Qed.

Lemma X9_gradeRanges_adopted_whatever_status_witness :
  let ranges := VObj [("O", VStr "91-100"); ("A+", VStr "81-90")] in
  let res := {| status := 500; json := Fulfilled (VObj [("grade_ranges", ranges)]);
                blob := Rejected (Failure "body already read") |} in
  gradeRanges (state (exec (gradeRanges_settled (engine := example_engine)
                              (Fulfilled res)) graded_world))
  = ranges.
Proof.
  intros ranges res.
  rewrite (X9_gradeRanges_adopted_whatever_status (engine := example_engine)
             graded_world res (VObj [("grade_ranges", ranges)]) ranges
             eq_refl eq_refl).
  reflexivity.
Defined.

(** X10. The cards of the grade-ranges grid follow the canonical grade
    order whatever the order and the keys of the map the server sent: a
    label outside the grade system never gets a card, a grade whose
    entry is missing or falsy gets none, and each card shows the entry
    of its grade. Without grade ranges there are no cards. *)
Theorem X10_range_cards_canonical {engine : Engine} (ranges : value) :
  (fst <$> range_cards ranges) `sublist_of` gradeOrder
  ∧ (∀ g v, (g, v) ∈ range_cards ranges →
            g ∈ gradeOrder ∧ Get ranges g = inr v ∧ truthy v = true)
  ∧ (truthy ranges = false → range_cards ranges = []).
Proof.
  unfold range_cards. split; [|split].
  - destruct (truthy ranges); [|apply sublist_nil_l].
    induction gradeOrder as [|g l IH]; [done|]. cbn [omap list_omap].
    destruct (Get ranges g) as [e|v]; [by apply sublist_cons|].
    destruct (truthy v); [by apply sublist_skip | by apply sublist_cons].
  - intros g v. destruct (truthy ranges); [|by intros ?%elem_of_nil].
    rewrite list_elem_of_omap. intros (g' & Hin & Hcard).
    destruct (Get ranges g') as [e|v'] eqn:Hget; [done|].
    destruct (truthy v') eqn:Htruthy; [|done].
    by injection Hcard as <- <-.
  - by intros ->.
Qed.

(** *** Downloading *)

(** X11. With download info present whose file id has a text,
    [download()] issues exactly one request, to the download address of
    that text, and does nothing else: no notification, no timer, no
    state change. When the file id has no text (an object with an own
    [toString] property), putting the address together throws inside
    the [try]: no request goes out and an error notification with the
    thrown message is shown. *)
Theorem X11_download_issues_one_request {engine : Engine}
    (w : World) (info : DownloadInfo) :
  downloadInfo (state w) = Some info →
  exec handleDownload w
  = match ToString (fileId info) with
    | inr address =>
        exec (fetch (GET ("http://localhost:5000/download/" +:+ address))) w
    | inl e => exec (showNotification (message_of e) "error") w
    end.
Proof.
  intros Hinfo. unfold handleDownload, exec. step.
  unfold snapshot. cbn [fst snd]. rewrite Hinfo. step.
  destruct (ToString (fileId info)); reflexivity.
Qed.

Lemma X11_download_issues_one_request_witness :
  let w' := exec (handleDownload (engine := example_engine)) graded_world in
  requests w'
  = (requests graded_world ++ [GET "http://localhost:5000/download/f1"])%list
  ∧ state w' = state graded_world.
Proof.
  intros w'. unfold w'.
  rewrite (X11_download_issues_one_request (engine := example_engine)
             graded_world
             {| fileId := VStr "f1"; filename := VStr "graded_marks.xlsx" |}
             eq_refl).
  split; reflexivity.
Defined.

(** X12. Once the download request has settled the handler shows
    exactly one notification and writes no other state cell and issues
    no request. A file is handed to the browser only when the response
    has a success status, its blob can be read and the filename the
    handler was created with has a text; it is then saved once under
    that text (also when the state has been reset since) and the
    notification is a success. A non-success status gives "Download
    failed from server."; a rejected request, an unreadable blob or a
    filename without a text (an object with an own [toString] property)
    gives the message of that failure, and nothing is saved. *)
Theorem X12_download_settled_outcomes {engine : Engine}
    (info : DownloadInfo) (r : Settled Response) (w : World) :
  let w' := exec (handleDownload_settled info r) w in
  let shown (m k : string) := exec (showNotification m k) w in
  match r with
  | Rejected e => w' = shown (message_of e) "error"
  | Fulfilled response =>
      if ok response then
        match blob response with
        | Fulfilled b =>
            match ToString (filename info) with
            | inr download =>
                w' = exec (showNotification "File downloaded successfully!"
                             "success")
                       (exec (save_blob b download) w)
            | inl e => w' = shown (message_of e) "error"
            end
        | Rejected e => w' = shown (message_of e) "error"
        end
      else w' = shown "Download failed from server." "error"
  end.
Proof.
  unfold handleDownload_settled, try_catch, exec.
  destruct r as [response|e]; [|reflexivity].
  step. destruct (ok response); [|reflexivity].
  cbn [negb]. step. destruct (blob response); [|reflexivity].
  step. by destruct (ToString (filename info)).
Qed.

(** *** Responses that arrive late *)



(** X14. Likewise a grade-ranges response that arrives after a new file
    was selected still fills the grade ranges, although the result they
    belong to has been cleared. *)
Theorem X14_late_ranges_fill_cleared_result {engine : Engine}
    (w : World) (file : File) (res : Response) (data ranges : value) :
  excel_name (name file) →
  json res = Fulfilled data →
  Get data "grade_ranges" = inr ranges →
  truthy ranges = true →
  let w' := exec (gradeRanges_settled (Fulfilled res))
              (exec (handleFileSelect (Some [file])) w) in
  gradeRanges (state w') = ranges
  ∧ downloadInfo (state w') = None
  ∧ resultStats (state w') = VNull
  ∧ resultDetails (state w') = VArr []
  ∧ selectedFile (state w') = Some file.
Proof.
  intros Hname Hjson Hget Htruthy w'. unfold w'.
  rewrite (gradeRanges_adopted _ res data ranges Hjson Hget).
  rewrite Htruthy. rewrite excel_name_test in Hname. unfold handleFileSelect.
  destruct (endsWith (toLowerCase (name file)) ".xlsx");
    destruct (endsWith (toLowerCase (name file)) ".xls");
    try discriminate; repeat split.
Qed.

Lemma X14_late_ranges_fill_cleared_result_witness :
  let ranges := VObj [("O", VStr "91-100"); ("U", VStr "0-49")] in
  let res := {| status := 200; json := Fulfilled (VObj [("grade_ranges", ranges)]);
                blob := Rejected (Failure "body already read") |} in
  let second := {| name := "Section-B.xls"; size := 4096 |} in
  let w' := exec (gradeRanges_settled (engine := example_engine) (Fulfilled res))
              (exec (handleFileSelect (Some [second])) graded_world) in
  gradeRanges (state w') = ranges
  ∧ downloadInfo (state w') = None
  ∧ selectedFile (state w') = Some second.
Proof.
  intros ranges res second w'.
  assert (Hname : excel_name (name second))
    by (rewrite excel_name_test; reflexivity).
  destruct (X14_late_ranges_fill_cleared_result (engine := example_engine)
              graded_world second res (VObj [("grade_ranges", ranges)]) ranges
              Hname eq_refl eq_refl eq_refl)
    as (Hranges & Hinfo & _ & _ & Hfile).
  split; [exact Hranges | split; [exact Hinfo | exact Hfile]].
Defined.

(** *** Timers *)

Lemma filter_due_fired (now : N) (ts : list Timer) :
  List.filter (is_due now) ts = [] ↔ fired now ts = false.
Proof.
  unfold fired. induction ts as [|x ts IH]; [done|]. cbn.
  destruct (is_due now x); [done | exact IH].
Qed.

(** The world after time has passed until [t]. *)
Lemma advance_world (t : N) (w : World) :
  let now := N.max (clock w) t in
  advance t w
  = {| state := if fired now (timers w)
                then state (exec (setNotification no_notification) w)
                else state w;
       inputRef := inputRef w;
       clock := now;
       timers := List.filter (fun x => negb (is_due now x)) (timers w);
       requests := requests w;
       saved := saved w |}.
Proof.
  intros now. unfold advance. fold now.
  cbv beta iota zeta delta [exec mbind M_bind].
  rewrite run_callbacks_clear.
  pose proof (length_firing_order (List.filter (is_due now) (timers w))) as Hlen.
  pose proof (filter_due_fired now (timers w)) as Hfired.
  destruct (firing_order (List.filter (is_due now) (timers w))) as [|x l];
    destruct (List.filter (is_due now) (timers w)) as [|y l']; try done.
  - by rewrite (proj1 Hfired eq_refl).
  - destruct (fired now (timers w)); [done|].
    discriminate (proj2 Hfired eq_refl).
Qed.

Lemma is_due_mono (a b : N) (x : Timer) :
  (a ≤ b)%N → is_due a x = true → is_due b x = true.
Proof. unfold is_due. rewrite !N.leb_le. lia. Qed.

Lemma filter_pending_twice (a b : N) (ts : list Timer) :
  (a ≤ b)%N →
  List.filter (fun x => negb (is_due b x))
    (List.filter (fun x => negb (is_due a x)) ts)
  = List.filter (fun x => negb (is_due b x)) ts.
Proof.
  intros Hab. induction ts as [|x ts IH]; [done|]. cbn.
  destruct (is_due a x) eqn:Ha; cbn.
  - by rewrite (is_due_mono a b x Hab Ha).
  - destruct (is_due b x); cbn; by rewrite IH.
Qed.

Lemma fired_in_two_steps (a b : N) (ts : list Timer) :
  (a ≤ b)%N →
  fired b ts
  = fired a ts || fired b (List.filter (fun x => negb (is_due a x)) ts).
Proof.
  intros Hab. unfold fired. induction ts as [|x ts IH]; [done|]. cbn.
  destruct (is_due a x) eqn:Ha; cbn.
  - by rewrite (is_due_mono a b x Hab Ha).
  - destruct (is_due b x); cbn; [by rewrite orb_true_r | exact IH].
Qed.

(** X15. Letting time pass in two steps is the same as letting it pass
    in one: for [t1 <= t2], advancing to [t1] and then to [t2] gives the
    world that advancing to [t2] gives. Passing time never issues a
    request and never touches any state cell but the notification. *)
Theorem X15_advance_composes (t1 t2 : N) (w : World) :
  (t1 ≤ t2)%N →
  advance t2 (advance t1 w) = advance t2 w
  ∧ requests (advance t2 w) = requests w
  ∧ same_inputs w (advance t2 w)
  ∧ same_result w (advance t2 w)
  ∧ gradeRanges (state (advance t2 w)) = gradeRanges (state w)
  ∧ isUploading (state (advance t2 w)) = isUploading (state w).
Proof.
  intros H12. split.
  - rewrite (advance_world t2 (advance t1 w)), (advance_world t2 w).
    rewrite (advance_world t1 w). cbv zeta.
    cbn [clock timers inputRef requests saved state].
    replace (N.max (N.max (clock w) t1) t2) with (N.max (clock w) t2) by lia.
    rewrite filter_pending_twice by lia.
    rewrite (fired_in_two_steps (N.max (clock w) t1) (N.max (clock w) t2)
               (timers w)) by lia.
    destruct (fired (N.max (clock w) t1) (timers w));
      destruct (fired (N.max (clock w) t2)
                  (List.filter
                     (fun x => negb (is_due (N.max (clock w) t1) x))
                     (timers w)));
      reflexivity.
  - rewrite (advance_world t2 w). cbv zeta. unfold same_inputs, same_result.
    cbn [clock timers inputRef requests saved state].
    destruct (fired (N.max (clock w) t2) (timers w)); repeat split.
Qed.

Lemma X15_advance_composes_witness :
  let w := notify_twice initialWorld 0 "Please select a file first" "error"
             1500 "File processed successfully!" "success" in
  advance 6000 (advance 4000 w) = advance 6000 w.
Proof.
  intros w.
  assert (H : (4000 ≤ 6000)%N) by lia.
  exact (proj1 (X15_advance_composes 4000 6000 w H)).
Defined.

(** X16. A notification shown when no earlier timer is pending any more
    is displayed for exactly 4000 ms: at every time before [t + 4000]
    it is still displayed with its timer pending, and from [t + 4000] on
    nothing is displayed and no timer is left. *)
Theorem X16_lone_notification_lifetime
    (w : World) (t : N) (m k : string) (later : N) :
  (clock w ≤ t)%N →
  (∀ x, x ∈ timers w → (due x ≤ t)%N) →
  (t ≤ later)%N →
  let shown := exec (showNotification m k) (advance t w) in
  notification (state (advance later shown))
  = (if (later <? t + 4000)%N then {| message := m; type := k |}
     else no_notification)
  ∧ timers (advance later shown)
    = (if (later <? t + 4000)%N then [clearing_timer t] else []).
Proof.
  intros Hclock Hdue Hlater shown.
  assert (Hnone : List.filter (fun x => negb (is_due (N.max (clock w) t) x))
                    (timers w) = []).
  { induction (timers w) as [|x ts IH]; [done|]. cbn.
    assert (Hx : is_due (N.max (clock w) t) x = true).
    { apply N.leb_le. specialize (Hdue x (list_elem_of_here _ _)). lia. }
    rewrite Hx. cbn. apply IH. intros y Hy. apply Hdue. by right. }
  assert (Htimers : timers shown = [clearing_timer t]).
  { unfold shown. rewrite timers_showNotification, (advance_world t w).
    cbv zeta. cbn [timers clock]. rewrite Hnone.
    by rewrite N.max_r by lia. }
  assert (Hc : clock shown = t).
  { unfold shown. rewrite clock_showNotification, (advance_world t w).
    cbv zeta. cbn [clock]. lia. }
  rewrite (advance_world later shown). cbv zeta.
  cbn [state timers]. rewrite Htimers, Hc, N.max_r by lia.
  unfold fired, is_due, clearing_timer. cbn [existsb List.filter due orb negb].
  destruct (N.ltb_spec later (t + 4000)) as [Hlt|Hge].
  - assert (Hleb : (t + 4000 <=? later)%N = false) by (apply N.leb_gt; lia).
    rewrite Hleb. split; [|done]. unfold shown. reflexivity.
  - assert (Hleb : (t + 4000 <=? later)%N = true) by (apply N.leb_le; lia).
    rewrite Hleb. split; [|done]. reflexivity.
Qed.

Lemma X16_lone_notification_lifetime_witness :
  let shown := exec (showNotification "File processed successfully!" "success")
                 (advance 250 initialWorld) in
  notification (state (advance 4249 shown))
  = {| message := "File processed successfully!"; type := "success" |}
  ∧ timers (advance 4249 shown) = [clearing_timer 250].
Proof.
  intros shown.
  assert (H1 : (clock initialWorld ≤ 250)%N) by (cbn; lia).
  assert (H2 : ∀ x, x ∈ timers initialWorld → (due x ≤ 250)%N)
    by (intros x Hx; cbn in Hx; by apply elem_of_nil in Hx).
  assert (H3 : (250 ≤ 4249)%N) by lia.
  exact (X16_lone_notification_lifetime initialWorld 250
           "File processed successfully!" "success" 4249 H1 H2 H3).
Defined.

(** *** What [submit()] lets through *)

Lemma handleUpload_accepts (w : World) (file : File) :
  selectedFile (state w) = Some file →
  total_refused (expectedTotal (state w)) = false →
  subject_refused (subjectCode (state w)) = false →
  exec handleUpload w
  = exec (fetch (upload_request file (expectedTotal (state w))
                   (subjectCode (state w))))
      (exec (setIsUploading true) w).
Proof.
  unfold total_refused, subject_refused, upload_request, handleUpload.
  intros Hfile Htotal Hsubject. run. rewrite Hfile, Htotal, Hsubject.
  run. by rewrite Hfile.
Qed.

Lemma handleUpload_refuses_total (w : World) (file : File) :
  selectedFile (state w) = Some file →
  total_refused (expectedTotal (state w)) = true →
  exec handleUpload w
  = exec (showNotification
            "Please enter a valid expected total number of students" "error") w.
Proof.
  unfold total_refused, handleUpload.
  intros Hfile Htotal. run. rewrite Hfile, Htotal. cbn [snd]. by rewrite Hfile.
Qed.

Lemma subject_refused_trim (s : string) :
  trim s ≠ "" → subject_refused s = false.
Proof.
  intros Hne. unfold subject_refused.
  destruct (String.eqb s "" || String.eqb (trim s) "") eqn:Htest; [|done].
  by apply trim_empty_test in Htest.
Qed.

Lemma digit_not_white (c : ascii) : is_digit c = true → is_white c = false.
Proof. destruct c as [[] [] [] [] [] [] [] []]; vm_compute; congruence. Qed.

Lemma digit_zero (c : ascii) (d : N) :
  digit_of 10 c = Some d → (d =? 0)%N = Ascii.eqb c "0".
Proof.
  destruct c as [[] [] [] [] [] [] [] []]; vm_compute;
    intros H; try discriminate H; by injection H as <-.
Qed.

Lemma trimStart_id (s : string) : starts_white s = false → trimStart s = s.
Proof. destruct s as [|c r]; [done|]. cbn. by intros ->. Qed.

Lemma ends_white_cons (c : ascii) (r : string) :
  ends_white (String c r) = if String.eqb r "" then is_white c else ends_white r.
Proof. by destruct r. Qed.

Lemma trimEnd_id (s : string) : ends_white s = false → trimEnd s = s.
Proof.
  induction s as [|c r IH]; [done|]. rewrite ends_white_cons. cbn [trimEnd].
  destruct r as [|c' r'].
  - cbn. by intros ->.
  - cbn [String.eqb]. intros Hr. rewrite (IH Hr). cbn [String.eqb].
    by rewrite andb_false_r.
Qed.

Lemma trim_id (s : string) :
  starts_white s = false → ends_white s = false → trim s = s.
Proof.
  intros Hs He. unfold trim. rewrite (trimStart_id s Hs). by apply trimEnd_id.
Qed.

Lemma all_digits_ends (s : string) : all_digits s = true → ends_white s = false.
Proof.
  induction s as [|c r IH]; [done|]. cbn [all_digits].
  intros [Hc Hr]%andb_prop. rewrite ends_white_cons.
  destruct (String.eqb r ""); [by apply digit_not_white | by apply IH].
Qed.

Lemma all_digits_starts (s : string) : all_digits s = true → starts_white s = false.
Proof.
  destruct s as [|c r]; [done|]. cbn. intros [Hc _]%andb_prop.
  by apply digit_not_white.
Qed.

(** A run of digits is read to its end; the value read is zero exactly
    when the run continues a zero with zeros. *)
Lemma scan_all_digits (s : string) (acc : N) (n : nat) :
  all_digits s = true →
  ∃ v, scan_digits 10 s acc n = (v, n + String.length s, "")
       ∧ (v =? 0)%N = (acc =? 0)%N && all_zeros s.
Proof.
  revert acc n. induction s as [|c r IH]; intros acc n Hs.
  - exists acc. cbn. rewrite Nat.add_0_r, andb_true_r. done.
  - cbn [all_digits] in Hs. apply andb_prop in Hs as [Hc Hr].
    unfold is_digit in Hc. cbn [scan_digits all_zeros String.length].
    destruct (digit_of 10 c) as [d|] eqn:Hd; [|done].
    destruct (IH (10 * acc + d)%N (S n) Hr) as (v & Hscan & Hzero).
    exists v. split; [rewrite Hscan; f_equal; f_equal; lia|].
    rewrite Hzero, <- (digit_zero c d Hd), andb_assoc. f_equal.
    destruct (N.eqb_spec (10 * acc + d) 0), (N.eqb_spec acc 0),
      (N.eqb_spec d 0); cbn; first [done | lia].
Qed.

Lemma digit_not_I (c : ascii) : is_digit c = true → Ascii.eqb c "I" = false.
Proof. destruct c as [[] [] [] [] [] [] [] []]; vm_compute; congruence. Qed.

(** [Number] on a decimal literal without sign, point or exponent. *)
Lemma unsigned_decimal_digits (neg : bool) (s : string) :
  all_digits s = true → s ≠ "" →
  ∃ v, unsigned_decimal neg s = Dec neg v 0
       ∧ (v =? 0)%N = all_zeros s.
Proof.
  intros Hs Hne. destruct (scan_all_digits s 0 0 Hs) as (v & Hscan & Hzero).
  exists v. split; [|exact Hzero]. unfold unsigned_decimal. rewrite Hscan.
  destruct s as [|c r]; [done|].
  cbn [all_digits] in Hs. apply andb_prop in Hs as [Hc _].
  cbn [String.eqb]. rewrite (digit_not_I c Hc). reflexivity.
Qed.

Lemma Number_unsigned (c : ascii) (r : string) :
  is_digit c = true →
  match r with "" => true | String c' _ => is_digit c' end = true →
  trim (String c r) = String c r →
  Number (String c r) = unsigned_decimal false (String c r).
Proof.
  intros Hc Hr Htrim. unfold Number. rewrite Htrim.
  destruct c as [[] [] [] [] [] [] [] []]; try discriminate Hc;
    try reflexivity.
  destruct r as [|c' r']; [reflexivity|].
  destruct c' as [[] [] [] [] [] [] [] []]; try discriminate Hr; reflexivity.
Qed.

Lemma Number_digits (s : string) :
  all_digits s = true → s ≠ "" →
  ∃ v, Number s = Dec false v 0.
Proof.
  intros Hs Hne.
  destruct (unsigned_decimal_digits false s Hs Hne) as (v & Hv & _).
  exists v. rewrite <- Hv. destruct s as [|c r]; [done|].
  pose proof (trim_id _ (all_digits_starts _ Hs) (all_digits_ends _ Hs)) as Ht.
  cbn [all_digits] in Hs. apply andb_prop in Hs as [Hc Hr].
  apply Number_unsigned; [done | | done].
  destruct r as [|c' r']; [done|]. cbn [all_digits] in Hr.
  by apply andb_prop in Hr as [Hc' _].
Qed.

Lemma Number_minus_digits (s : string) :
  all_digits s = true → s ≠ "" →
  ∃ v, Number ("-" +:+ s) = Dec true v 0 ∧ (v =? 0)%N = all_zeros s.
Proof.
  intros Hs Hne.
  destruct (unsigned_decimal_digits true s Hs Hne) as (v & Hv & Hzero).
  exists v. split; [|exact Hzero]. rewrite <- Hv. unfold Number.
  change ("-" +:+ s) with (String "-" s).
  rewrite trim_id; [reflexivity | reflexivity |].
  rewrite ends_white_cons. destruct s as [|c r]; [done|].
  cbn [String.eqb]. by apply all_digits_ends.
Qed.

(** X17. An expected total written with decimal digits only is let
    through: with a file staged and a subject code that is not blank,
    the busy flag is set and the upload request goes out, carrying the
    total as it was typed. *)
Theorem X17_digit_total_accepted (w : World) (file : File) :
  selectedFile (state w) = Some file →
  all_digits (expectedTotal (state w)) = true →
  expectedTotal (state w) ≠ "" →
  trim (subjectCode (state w)) ≠ "" →
  exec handleUpload w
  = exec (fetch (upload_request file (expectedTotal (state w))
                   (subjectCode (state w))))
      (exec (setIsUploading true) w).
Proof.
  intros Hfile Hdigits Hne Hsubject.
  apply handleUpload_accepts; [done | | by apply subject_refused_trim].
  unfold total_refused. destruct (Number_digits _ Hdigits Hne) as (v & ->).
  cbn. destruct (String.eqb_spec (expectedTotal (state w)) ""); done.
Qed.

Lemma X17_digit_total_accepted_witness :
  let file := {| name := "marks.xlsx"; size := 2048 |} in
  requests (exec handleUpload (staged_world file "0045" "CS101"))
  = [upload_request file "0045" "CS101"].
Proof.
  intros file.
  assert (H1 : selectedFile (state (staged_world file "0045" "CS101")) = Some file)
    by reflexivity.
  assert (H2 : all_digits (expectedTotal (state (staged_world file "0045" "CS101")))
               = true) by reflexivity.
  assert (H3 : expectedTotal (state (staged_world file "0045" "CS101")) ≠ "")
    by discriminate.
  assert (H4 : trim (subjectCode (state (staged_world file "0045" "CS101"))) ≠ "")
    by (vm_compute; discriminate).
  rewrite (X17_digit_total_accepted _ file H1 H2 H3 H4). reflexivity.
Defined.

(** X18. An expected total that is a minus sign followed by decimal
    digits is turned down exactly when one of the digits is not zero:
    then no request goes out and the expected-total message is shown.
    A minus sign followed by zeros only ("-0") is let through like
    zero. *)
Theorem X18_minus_total_refused_unless_zero
    (w : World) (file : File) (digits : string) :
  selectedFile (state w) = Some file →
  expectedTotal (state w) = "-" +:+ digits →
  all_digits digits = true →
  digits ≠ "" →
  (all_zeros digits = false →
   exec handleUpload w
   = exec (showNotification
             "Please enter a valid expected total number of students" "error") w)
  ∧ (all_zeros digits = true →
     trim (subjectCode (state w)) ≠ "" →
     exec handleUpload w
     = exec (fetch (upload_request file (expectedTotal (state w))
                      (subjectCode (state w))))
         (exec (setIsUploading true) w)).
Proof.
  intros Hfile Htotal Hdigits Hne.
  destruct (Number_minus_digits digits Hdigits Hne) as (v & Hnum & Hzero).
  assert (Hrefused : total_refused (expectedTotal (state w))
                     = negb (all_zeros digits)).
  { unfold total_refused. rewrite Htotal, Hnum.
    change (String.eqb ("-" +:+ digits) "") with false.
    cbn [isNaN lt_zero orb andb]. unfold rounds_to_zero. rewrite Hzero.
    by destruct (all_zeros digits). }
  split.
  - intros Hnz. apply (handleUpload_refuses_total w file); [done|].
    by rewrite Hrefused, Hnz.
  - intros Hz Hsubject.
    apply handleUpload_accepts; [done | | by apply subject_refused_trim].
    by rewrite Hrefused, Hz.
Qed.

Lemma X18_minus_total_refused_unless_zero_witness :
  let file := {| name := "marks.xlsx"; size := 2048 |} in
  requests (exec handleUpload (staged_world file "-045" "CS101")) = []
  ∧ requests (exec handleUpload (staged_world file "-00" "CS101"))
    = [upload_request file "-00" "CS101"].
Proof.
  intros file. split.
  - assert (Hd : all_digits "045" = true) by reflexivity.
    assert (Hne : "045" ≠ "") by discriminate.
    destruct (X18_minus_total_refused_unless_zero
                (staged_world file "-045" "CS101") file "045"
                eq_refl eq_refl Hd Hne) as [Hrefused _].
    rewrite (Hrefused eq_refl). reflexivity.
  - assert (Hd : all_digits "00" = true) by reflexivity.
    assert (Hne : "00" ≠ "") by discriminate.
    assert (Hs : trim (subjectCode (state (staged_world file "-00" "CS101"))) ≠ "")
      by (vm_compute; discriminate).
    destruct (X18_minus_total_refused_unless_zero
                (staged_world file "-00" "CS101") file "00"
                eq_refl eq_refl Hd Hne) as [_ Haccepted].
    rewrite (Haccepted eq_refl Hs). reflexivity.
Defined.

Lemma trimStart_all_white (s : string) : all_white s = true → trimStart s = "".
Proof.
  induction s as [|c r IH]; [done|]. cbn.
  intros [Hc Hr]%andb_prop. rewrite Hc. by apply IH.
Qed.

(** X19. An expected total of white space only is not turned down:
    it is not the empty text, and [Number] reads it as zero. With a file
    staged and a subject code that is not blank the upload request goes
    out, carrying the white space as the expected total. *)
Theorem X19_blank_total_accepted (w : World) (file : File) :
  selectedFile (state w) = Some file →
  all_white (expectedTotal (state w)) = true →
  expectedTotal (state w) ≠ "" →
  trim (subjectCode (state w)) ≠ "" →
  Number (expectedTotal (state w)) = Dec false 0 0
  ∧ exec handleUpload w
    = exec (fetch (upload_request file (expectedTotal (state w))
                     (subjectCode (state w))))
        (exec (setIsUploading true) w).
Proof.
  intros Hfile Hwhite Hne Hsubject.
  assert (Hnum : Number (expectedTotal (state w)) = Dec false 0 0).
  { unfold Number, trim. by rewrite (trimStart_all_white _ Hwhite). }
  split; [exact Hnum|].
  apply handleUpload_accepts; [done | | by apply subject_refused_trim].
  unfold total_refused. rewrite Hnum. cbn.
  destruct (String.eqb_spec (expectedTotal (state w)) ""); done.
Qed.

Lemma X19_blank_total_accepted_witness :
  let file := {| name := "marks.xlsx"; size := 2048 |} in
  requests (exec handleUpload (staged_world file "  " "CS101"))
  = [upload_request file "  " "CS101"].
Proof.
  intros file.
  assert (H1 : selectedFile (state (staged_world file "  " "CS101")) = Some file)
    by reflexivity.
  assert (H2 : all_white (expectedTotal (state (staged_world file "  " "CS101")))
               = true) by reflexivity.
  assert (H3 : expectedTotal (state (staged_world file "  " "CS101")) ≠ "")
    by discriminate.
  assert (H4 : trim (subjectCode (state (staged_world file "  " "CS101"))) ≠ "")
    by (vm_compute; discriminate).
  rewrite (proj2 (X19_blank_total_accepted _ file H1 H2 H3 H4)). reflexivity.
Defined.

Lemma trimStart_starts (s : string) : starts_white (trimStart s) = false.
Proof.
  induction s as [|c r IH]; [done|]. cbn.
  destruct (is_white c) eqn:Hc; [exact IH | cbn; exact Hc].
Qed.

Lemma trimEnd_starts (s : string) :
  starts_white s = false → starts_white (trimEnd s) = false.
Proof.
  destruct s as [|c r]; [done|]. cbn [starts_white trimEnd]. intros Hc.
  rewrite Hc. cbn. exact Hc.
Qed.

Lemma trimEnd_ends (s : string) : ends_white (trimEnd s) = false.
Proof.
  induction s as [|c r IH]; [done|]. cbn [trimEnd].
  destruct (is_white c && String.eqb (trimEnd r) "") eqn:Htest; [done|].
  rewrite ends_white_cons.
  destruct (String.eqb (trimEnd r) "") eqn:Hr; [|exact IH].
  by rewrite andb_true_r in Htest.
Qed.

Lemma trim_trimmed (s : string) :
  starts_white (trim s) = false ∧ ends_white (trim s) = false
  ∧ trim (trim s) = trim s.
Proof.
  assert (Hs : starts_white (trim s) = false)
    by apply trimEnd_starts, trimStart_starts.
  assert (He : ends_white (trim s) = false) by apply trimEnd_ends.
  split; [done|]. split; [done|]. by apply trim_id.
Qed.

(** X20. Every upload request carries, as its subject code, the
    trimmed text of the subject-code cell: the text sent is
    [subjectCode.trim()], it is not empty, neither begins nor ends with
    white space, and trimming it again changes nothing. The expected
    total is sent as typed. *)
Theorem X20_subject_code_sent_trimmed (w : World) (file : File) :
  selectedFile (state w) = Some file →
  total_refused (expectedTotal (state w)) = false →
  trim (subjectCode (state w)) ≠ "" →
  let subject := trim (subjectCode (state w)) in
  requests (exec handleUpload w)
  = (requests w
     ++ [POST "http://localhost:5000/upload"
           [("file", FormFile file);
            ("expected_total_students", FormText (expectedTotal (state w)));
            ("subject_code", FormText subject)]])%list
  ∧ subject ≠ ""
  ∧ starts_white subject = false
  ∧ ends_white subject = false
  ∧ trim subject = subject.
Proof.
  intros Hfile Htotal Hsubject subject. unfold subject.
  rewrite (handleUpload_accepts w file Hfile Htotal
             (subject_refused_trim _ Hsubject)).
  destruct (trim_trimmed (subjectCode (state w))) as (Hs & He & Hid).
  repeat split; done.
Qed.

Lemma X20_subject_code_sent_trimmed_witness :
  let file := {| name := "marks.xlsx"; size := 2048 |} in
  requests (exec handleUpload (staged_world file "45" "  CS 101 "))
  = [POST "http://localhost:5000/upload"
       [("file", FormFile file);
        ("expected_total_students", FormText "45");
        ("subject_code", FormText "CS 101")]]
  ∧ starts_white "CS 101" = false
  ∧ ends_white "CS 101" = false.
Proof.
  intros file.
  assert (H1 : selectedFile (state (staged_world file "45" "  CS 101 "))
               = Some file) by reflexivity.
  assert (H2 : total_refused
                 (expectedTotal (state (staged_world file "45" "  CS 101 ")))
               = false) by reflexivity.
  assert (H3 : trim (subjectCode (state (staged_world file "45" "  CS 101 ")))
               ≠ "") by (vm_compute; discriminate).
  destruct (X20_subject_code_sent_trimmed _ file H1 H2 H3)
    as (Hrequest & _ & Hstart & Hend & _).
  split; [exact Hrequest | split; [exact Hstart | exact Hend]].
Defined.

(** *** What the markup shows *)

(** X21. The [disabled] expression of the upload button,
    [!selectedFile || isUploading], evaluated on the component's state:
    it is true on the state a submission that passes the checks leaves,
    and false on the state that selecting an accepted file leaves, also
    when that file is selected while an upload is still in flight. *)
Theorem X21_upload_button (w : World) (file : File) :
  (selectedFile (state w) = Some file →
   total_refused (expectedTotal (state w)) = false →
   trim (subjectCode (state w)) ≠ "" →
   upload_disabled (state (exec handleUpload w)) = true)
  ∧ (∀ others : list File,
       excel_name (name file) →
       upload_disabled (state (exec (handleFileSelect (Some (file :: others))) w))
       = false).
Proof.
  split.
  - intros Hfile Htotal Hsubject.
    rewrite (handleUpload_accepts w file Hfile Htotal
               (subject_refused_trim _ Hsubject)).
    unfold upload_disabled. cbn. by rewrite Hfile.
  - intros others Hname. rewrite excel_name_test in Hname.
    unfold handleFileSelect.
    destruct (endsWith (toLowerCase (name file)) ".xlsx");
      destruct (endsWith (toLowerCase (name file)) ".xls");
      try discriminate; reflexivity.
Qed.

Lemma X21_upload_button_witness :
  let file := {| name := "marks.xlsx"; size := 2048 |} in
  let busy := exec handleUpload (staged_world file "45" "CS101") in
  upload_disabled (state busy) = true
  ∧ upload_disabled
      (state (exec (handleFileSelect
                      (Some [{| name := "Section-B.xls"; size := 4096 |}])) busy))
    = false.
Proof.
  intros file busy.
  assert (H1 : selectedFile (state (staged_world file "45" "CS101")) = Some file)
    by reflexivity.
  assert (H2 : total_refused (expectedTotal (state (staged_world file "45" "CS101")))
               = false) by reflexivity.
  assert (H3 : trim (subjectCode (state (staged_world file "45" "CS101"))) ≠ "")
    by (vm_compute; discriminate).
  assert (H4 : excel_name "Section-B.xls")
    by (rewrite excel_name_test; reflexivity).
  split.
  - exact (proj1 (X21_upload_button (staged_world file "45" "CS101") file)
             H1 H2 H3).
  - exact (proj2 (X21_upload_button busy
                    {| name := "Section-B.xls"; size := 4096 |}) [] H4).
Defined.

Lemma length_replace_underscores (s : string) :
  String.length (replace_underscores s) = String.length s.
Proof. induction s as [|c r IH]; [done|]. cbn. by rewrite IH. Qed.

Lemma replace_underscores_clean (s : string) :
  has_underscore (replace_underscores s) = false.
Proof.
  induction s as [|c r IH]; [done|]. cbn. rewrite IH.
  by destruct (Ascii.eqb c "_") eqn:Hc; [|rewrite Hc].
Qed.

Lemma replace_underscores_id (s : string) :
  has_underscore s = false → replace_underscores s = s.
Proof.
  induction s as [|c r IH]; [done|]. cbn.
  intros [Hc Hr]%orb_false_elim. by rewrite Hc, IH.
Qed.

Lemma get_replace_underscores (s : string) (i : nat) :
  String.get i (replace_underscores s)
  = (fun c => if Ascii.eqb c "_" then " "%char else c) <$> String.get i s.
Proof.
  revert i. induction s as [|c r IH]; intros i; [done|].
  cbn. destruct i as [|i]; [done | apply IH].
Qed.

(** X22. The "Grading Method" card shows the server's text with every
    underscore turned into a space and every other character, and the
    length, unchanged: the result has no underscore and is the same
    text when there was none. A summary without a grading method gives
    [undefined] (nothing to show), not an error. *)
Theorem X22_grading_method_label {engine : Engine}
    (props : list (string * value)) (text : string) :
  (own_property "grading_method" props = VStr text →
   ∃ label,
     grading_method_label (VObj props) = inr (VStr label)
     ∧ String.length label = String.length text
     ∧ has_underscore label = false
     ∧ (∀ i, String.get i label
             = (fun c => if Ascii.eqb c "_" then " "%char else c)
                 <$> String.get i text)
     ∧ (has_underscore text = false → label = text))
  ∧ (own_property "grading_method" props = VUndefined
     ∨ own_property "grading_method" props = VNull →
     grading_method_label (VObj props) = inr VUndefined).
Proof.
  unfold grading_method_label. cbn [Get]. split.
  - intros ->. exists (replace_underscores text). split; [done|].
    split; [apply length_replace_underscores|].
    split; [apply replace_underscores_clean|].
    split; [apply get_replace_underscores | apply replace_underscores_id].
  - by intros [-> | ->].
Qed.

Lemma X22_grading_method_label_witness :
  grading_method_label (engine := example_engine)
    (VObj [("count", VNull); ("grading_method", VStr "relative_grading_v2")])
  = inr (VStr "relative grading v2").
Proof.
  destruct (proj1 (X22_grading_method_label (engine := example_engine)
                     [("count", VNull);
                      ("grading_method", VStr "relative_grading_v2")]
                     "relative_grading_v2") eq_refl)
    as (label & Hlabel & _).
  reflexivity.
Defined.

(** *** File names *)

Lemma length_toLowerCase (s : string) :
  String.length (toLowerCase s) = String.length s.
Proof. induction s as [|c r IH]; [done|]. cbn. by rewrite IH. Qed.

Lemma endsWith_short (s ext : string) :
  String.length s < String.length ext → endsWith s ext = false.
Proof.
  intros Hlen. unfold endsWith.
  by destruct (Nat.leb_spec (String.length ext) (String.length s)); [lia|].
Qed.

Lemma excel_name_stem (stem name : string) :
  excel_name name → excel_name (stem +:+ name).
Proof.
  intros [(st & tail & -> & Htail) | (st & tail & -> & Htail)];
    [left | right]; exists (stem +:+ st), tail;
    by rewrite append_assoc.
Qed.

(** X23. A file whose name has fewer than four characters is always
    turned down with the one error notification, whatever the name; and
    whether a name is accepted depends on how it ends only: if a name is
    accepted, so is every name that continues any text with it. *)
Theorem X23_file_name_length_and_stem (w : World) (file : File) :
  (String.length (name file) < 4 →
   exec (handleFileSelect (Some [file])) w
   = exec (showNotification
             "Please select a valid Excel file (.xlsx or .xls)" "error") w)
  ∧ (∀ (accepted : File) (stem : string),
       selectedFile (state (exec (handleFileSelect (Some [accepted]))
                              initialWorld)) = Some accepted →
       name file = stem +:+ name accepted →
       selectedFile (state (exec (handleFileSelect (Some [file])) w))
       = Some file).
Proof.
  split.
  - intros Hlen. unfold handleFileSelect.
    rewrite !endsWith_short by (rewrite length_toLowerCase; cbn; lia).
    reflexivity.
  - intros accepted stem Haccepted Hname.
    assert (Hexcel : excel_name (name accepted)).
    { apply excel_name_test. unfold handleFileSelect in Haccepted.
      destruct (endsWith (toLowerCase (name accepted)) ".xlsx");
        destruct (endsWith (toLowerCase (name accepted)) ".xls");
        try done. }
    apply (excel_name_stem stem) in Hexcel. rewrite <- Hname in Hexcel.
    apply excel_name_test in Hexcel. unfold handleFileSelect.
    destruct (endsWith (toLowerCase (name file)) ".xlsx");
      destruct (endsWith (toLowerCase (name file)) ".xls");
      try discriminate; reflexivity.
Qed.

Lemma X23_file_name_length_and_stem_witness :
  notification
    (state (exec (handleFileSelect (Some [{| name := "xls"; size := 1 |}]))
              initialWorld))
  = {| message := "Please select a valid Excel file (.xlsx or .xls)";
       type := "error" |}
  ∧ selectedFile
      (state (exec (handleFileSelect
                      (Some [{| name := "2024 marks.XLS"; size := 9 |}]))
                initialWorld))
    = Some {| name := "2024 marks.XLS"; size := 9 |}.
Proof.
  split.
  - assert (Hlen : String.length (name {| name := "xls"; size := 1 |}) < 4)
      by (cbn; lia).
    rewrite (proj1 (X23_file_name_length_and_stem initialWorld
                      {| name := "xls"; size := 1 |}) Hlen).
    reflexivity.
  - exact (proj2 (X23_file_name_length_and_stem initialWorld
                    {| name := "2024 marks.XLS"; size := 9 |})
             {| name := ".XLS"; size := 0 |} "2024 marks" eq_refl eq_refl).
Defined.
